(** * terraform-cost-guard: the cost estimation engine

    A shallow embedding of [internal/cost/pricing.go] and
    [internal/cost/estimator.go], together with the input records of
    [internal/plan/parser.go] that the estimator reads.

    - Go's [float64] is Rocq's primitive binary64 [float]: every arithmetic
      operation is rounded to nearest-even after each step, as on amd64
      where the Go compiler does not fuse multiply-add.  Literals are the
      nearest binary64 value of the decimal constant, as in Go.
    - [map[string]float64] and [map[string]interface{}] are [gmap string _];
      a nil attribute map is [None].
    - [int] counters are 64-bit two's complement integers carried in [Z],
      with the wrap-around of [++] written out.
    - [*plan.Plan] is taken non-nil, as [ParsePlanJSON] returns it.

    The embedding comes first, then the vocabulary of the properties and
    sample inputs, then the lemmas and the theorems about [Estimate]. *)

From Stdlib Require Import ZArith List Bool Lia Floats DecimalString Ascii.
From stdpp Require Import base strings gmap list.

Set Warnings "-inexact-float,-register-all,-clear-no-such-hyp".
Set Default Proof Using "Type".

Open Scope string_scope.

(** ** Go primitives used by the estimator *)

Module Go.

(** [int] on a 64-bit platform. *)
Definition int_min : Z := - 2 ^ 63.
Definition int_max : Z := 2 ^ 63 - 1.

Definition wrap_int (n : Z) : Z := (n + 2 ^ 63) mod 2 ^ 64 - 2 ^ 63.

(** [n++] *)
Definition incr (n : Z) : Z := wrap_int (n + 1).

(** [float64(n)] for an integer [n]: round to nearest, ties to even. *)
Definition float64_of_int (n : Z) : float :=
  SF2Prim (binary_normalize prec emax n 0 false).

(** [strings.Join(elems, sep)] *)
Fixpoint Join (elems : list string) (sep : string) : string :=
  match elems with
  | [] => ""
  | [a] => a
  | a :: rest => a ++ sep ++ Join rest sep
  end.

(** Nearest integer to [m * 2^e], ties to even: the digits that the verb
    [%.0f] prints for a finite non-zero binary64 value. *)
Definition round_to_integer (m : positive) (e : Z) : Z :=
  if (0 <=? e)%Z then (Z.pos m * 2 ^ e)%Z
  else
    let d := (2 ^ (- e))%Z in
    let q := (Z.pos m / d)%Z in
    let r := (Z.pos m mod d)%Z in
    match (2 * r ?= d)%Z with
    | Lt => q
    | Gt => (q + 1)%Z
    | Eq => if Z.even q then q else (q + 1)%Z
    end.

Definition decimal (n : Z) : string :=
  NilZero.string_of_uint (N.to_uint (Z.to_N n)).

(** [fmt.Sprintf("%.0f", f)] (and the equivalent ["%0.f"]). *)
Definition fmt_f0 (f : float) : string :=
  match Prim2SF f with
  | S754_nan => "NaN"
  | S754_infinity false => "+Inf"
  | S754_infinity true => "-Inf"
  | S754_zero false => "0"
  | S754_zero true => "-0"
  | S754_finite s m e =>
      (if s then "-" else "") ++ decimal (round_to_integer m e)
  end.

End Go.

(** ** internal/plan/parser.go: the records the estimator consumes *)

(** A value stored in a [map[string]interface{}].  [encoding/json] produces
    nil, bool, float64, string, slices and maps; [getFloat64Attr] also
    accepts [int] and [int64], which a caller building the map by hand can
    store. *)
Inductive value : Type :=
  | VNil
  | VBool (b : bool)
  | VFloat64 (f : float)
  | VInt (n : Z)
  | VInt64 (n : Z)
  | VString (s : string)
  | VSlice (l : list value)
  | VMap (kvs : list (string * value)).

(** A possibly nil [map[string]interface{}]. *)
Definition attributes : Type := option (gmap string value).

Record Change : Type := mkChange {
  Actions : list string;
  Before : attributes;
  After : attributes
}.

Record ResourceChange : Type := mkResourceChange {
  Address : string;
  Mode : string;
  Type_ : string;
  Name : string;
  ProviderName : string;
  Change_ : Change
}.

(** Only [ResourceChanges] is read by the estimator; the other fields of
    [Plan] are left out. *)
Record Plan : Type := mkPlan {
  FormatVersion : string;
  TerraformVersion : string;
  ResourceChanges : list ResourceChange
}.

(** The getters of [Plan].  A result declared with [var xs []ResourceChange]
    and never appended to is the nil slice; nil and empty are both [[]]. *)

Definition GetResourceChanges (p : Plan) : list ResourceChange :=
  ResourceChanges p.

(** [for _, action := range actions { if action == tag { acc = append(acc,
    rc); break } }] *)
Fixpoint append_if_tagged (actions : list string) (tag : string)
    (acc : list ResourceChange) (rc : ResourceChange) : list ResourceChange :=
  match actions with
  | [] => acc
  | action :: rest =>
      if bool_decide (action = tag) then (acc ++ [rc])%list
      else append_if_tagged rest tag acc rc
  end.

Definition GetCreatedResources (p : Plan) : list ResourceChange :=
  fold_left
    (fun created rc => append_if_tagged (Actions (Change_ rc)) "create"
                         created rc)
    (ResourceChanges p) [].

Definition GetDestroyedResources (p : Plan) : list ResourceChange :=
  fold_left
    (fun destroyed rc => append_if_tagged (Actions (Change_ rc)) "delete"
                           destroyed rc)
    (ResourceChanges p) [].

Definition GetUpdatedResources (p : Plan) : list ResourceChange :=
  fold_left
    (fun updated rc => append_if_tagged (Actions (Change_ rc)) "update"
                         updated rc)
    (ResourceChanges p) [].

(** The inner loop of [GetReplacedResources]: both flags, no [break]. *)
Fixpoint create_delete_flags (actions : list string)
    (hasCreate hasDelete : bool) : bool * bool :=
  match actions with
  | [] => (hasCreate, hasDelete)
  | action :: rest =>
      let hasCreate :=
        if bool_decide (action = "create") then true else hasCreate in
      let hasDelete :=
        if bool_decide (action = "delete") then true else hasDelete in
      create_delete_flags rest hasCreate hasDelete
  end.

Definition GetReplacedResources (p : Plan) : list ResourceChange :=
  fold_left
    (fun replaced rc =>
       let '(hasCreate, hasDelete) :=
         create_delete_flags (Actions (Change_ rc)) false false in
       if hasCreate && hasDelete then (replaced ++ [rc])%list else replaced)
    (ResourceChanges p) [].

(** ** internal/cost/pricing.go *)

Record PricingData : Type := mkPricingData {
  EC2Instances : gmap string float;
  RDSInstances : gmap string float;
  EBSStorage : gmap string float;
  LoadBalancers : gmap string float;
  NATGateway : float;
  Elasticache : gmap string float;
  EKSCluster : float;
  GCPInstances : gmap string float;
  AzureVMs : gmap string float
}.

Definition ec2_table : list (string * float) :=
  [ ("t3.nano", 0.0052); ("t3.micro", 0.0104); ("t3.small", 0.0208);
    ("t3.medium", 0.0416); ("t3.large", 0.0832); ("t3.xlarge", 0.1664);
    ("t3.2xlarge", 0.3328); ("t3a.nano", 0.0047); ("t3a.micro", 0.0094);
    ("t3a.small", 0.0188); ("t3a.medium", 0.0376); ("t3a.large", 0.0752);
    ("t3a.xlarge", 0.1504); ("t3a.2xlarge", 0.3008); ("m5.large", 0.096);
    ("m5.xlarge", 0.192); ("m5.2xlarge", 0.384); ("m5.4xlarge", 0.768);
    ("m5.8xlarge", 1.536); ("m5.12xlarge", 2.304); ("m5.16xlarge", 3.072);
    ("m5.24xlarge", 4.608); ("m6i.large", 0.096); ("m6i.xlarge", 0.192);
    ("m6i.2xlarge", 0.384); ("m6i.4xlarge", 0.768);
    ("c5.large", 0.085); ("c5.xlarge", 0.17); ("c5.2xlarge", 0.34);
    ("c5.4xlarge", 0.68); ("c5.9xlarge", 1.53); ("c5.18xlarge", 3.06);
    ("c6i.large", 0.085); ("c6i.xlarge", 0.17); ("c6i.2xlarge", 0.34);
    ("r5.large", 0.126); ("r5.xlarge", 0.252); ("r5.2xlarge", 0.504);
    ("r5.4xlarge", 1.008); ("r5.8xlarge", 2.016); ("r5.12xlarge", 3.024);
    ("p3.2xlarge", 3.06); ("p3.8xlarge", 12.24); ("p3.16xlarge", 24.48);
    ("g4dn.xlarge", 0.526); ("g4dn.2xlarge", 0.752);
    ("g4dn.4xlarge", 1.204) ]%float.

Definition rds_table : list (string * float) :=
  [ ("db.t3.micro", 0.017); ("db.t3.small", 0.034); ("db.t3.medium", 0.068);
    ("db.t3.large", 0.136); ("db.t3.xlarge", 0.272);
    ("db.t3.2xlarge", 0.544); ("db.m5.large", 0.171);
    ("db.m5.xlarge", 0.342); ("db.m5.2xlarge", 0.684);
    ("db.m5.4xlarge", 1.368); ("db.r5.large", 0.24); ("db.r5.xlarge", 0.48);
    ("db.r5.2xlarge", 0.96); ("db.r5.4xlarge", 1.92) ]%float.

Definition ebs_table : list (string * float) :=
  [ ("gp2", 0.10); ("gp3", 0.08); ("io1", 0.125); ("io2", 0.125);
    ("st1", 0.045); ("sc1", 0.015); ("standard", 0.05) ]%float.

Definition lb_table : list (string * float) :=
  [ ("alb", 0.0225); ("nlb", 0.0225); ("classic", 0.025) ]%float.

Definition elasticache_table : list (string * float) :=
  [ ("cache.t3.micro", 0.017); ("cache.t3.small", 0.034);
    ("cache.t3.medium", 0.068); ("cache.m5.large", 0.156);
    ("cache.m5.xlarge", 0.312); ("cache.m5.2xlarge", 0.624);
    ("cache.r5.large", 0.226); ("cache.r5.xlarge", 0.452) ]%float.

Definition gcp_table : list (string * float) :=
  [ ("e2-micro", 0.0084); ("e2-small", 0.0168); ("e2-medium", 0.0336);
    ("e2-standard-2", 0.0672); ("e2-standard-4", 0.1344);
    ("e2-standard-8", 0.2688); ("n1-standard-1", 0.0475);
    ("n1-standard-2", 0.095); ("n1-standard-4", 0.19);
    ("n1-standard-8", 0.38); ("n2-standard-2", 0.0971);
    ("n2-standard-4", 0.1942); ("n2-standard-8", 0.3884) ]%float.

Definition azure_table : list (string * float) :=
  [ ("Standard_B1s", 0.0104); ("Standard_B1ms", 0.0207);
    ("Standard_B2s", 0.0416); ("Standard_B2ms", 0.0832);
    ("Standard_D2s_v3", 0.096); ("Standard_D4s_v3", 0.192);
    ("Standard_D8s_v3", 0.384); ("Standard_E2s_v3", 0.126);
    ("Standard_E4s_v3", 0.252); ("Standard_E8s_v3", 0.504);
    ("Standard_F2s_v2", 0.085); ("Standard_F4s_v2", 0.169);
    ("Standard_F8s_v2", 0.338) ]%float.

Definition NewDefaultPricing : PricingData :=
  {| EC2Instances := list_to_map ec2_table;
     RDSInstances := list_to_map rds_table;
     EBSStorage := list_to_map ebs_table;
     LoadBalancers := list_to_map lb_table;
     NATGateway := 0.045%float;
     Elasticache := list_to_map elasticache_table;
     EKSCluster := 0.10%float;
     GCPInstances := list_to_map gcp_table;
     AzureVMs := list_to_map azure_table |}.

(** [m[k]] on a [map[string]float64]: the zero value when [k] is missing. *)
Definition rate_of (m : gmap string float) (k : string) : float :=
  default 0%float (m !! k).

(** ** internal/cost/estimator.go *)

Record CostEstimate : Type := mkCostEstimate {
  ResourceAddress : string;
  ResourceType : string;
  Action : string;
  MonthlyCost : float;
  Details : string
}.

Record EstimationResult : Type := mkEstimationResult {
  Estimates : list CostEstimate;
  TotalMonthlyCost : float;
  TotalMonthlyChange : float;
  CreatedResources : Z;
  DestroyedResources : Z;
  UpdatedResources : Z;
  UnsupportedTypes : list string
}.

Record Estimator : Type := mkEstimator {
  pricing : PricingData
}.

Definition NewEstimator : Estimator :=
  {| pricing := NewDefaultPricing |}.

Fixpoint containsAction (actions : list string) (target : string) : bool :=
  match actions with
  | [] => false
  | a :: rest => if bool_decide (a = target) then true
                 else containsAction rest target
  end.

Definition getStringAttr (attrs : gmap string value) (key defaultVal : string)
  : string :=
  match attrs !! key with
  | Some (VString s) => s
  | _ => defaultVal
  end.

Definition getFloat64Attr (attrs : gmap string value) (key : string)
    (defaultVal : float) : float :=
  match attrs !! key with
  | Some (VFloat64 n) => n
  | Some (VInt n) => Go.float64_of_int n
  | Some (VInt64 n) => Go.float64_of_int n
  | _ => defaultVal
  end.

(** The shared shape [rate := table[k]; if rate == 0 { rate = table[fb] }]. *)
Definition rate_or_fallback (table : gmap string float) (k fb : string)
  : float :=
  let hourlyRate := rate_of table k in
  if (hourlyRate =? 0)%float then rate_of table fb else hourlyRate.

Definition estimateEC2Instance (e : Estimator) (attrs : gmap string value)
  : float * string * bool :=
  let instanceType := getStringAttr attrs "instance_type" "t3.micro" in
  let hourlyRate :=
    rate_or_fallback (EC2Instances (pricing e)) instanceType "t3.micro" in
  let monthlyCost := (hourlyRate * 730)%float in
  (monthlyCost, "EC2 " ++ instanceType, true).

Definition estimateRDSInstance (e : Estimator) (attrs : gmap string value)
  : float * string * bool :=
  let instanceClass := getStringAttr attrs "instance_class" "db.t3.micro" in
  let hourlyRate :=
    rate_or_fallback (RDSInstances (pricing e)) instanceClass
      "db.t3.micro" in
  let storageGB := getFloat64Attr attrs "allocated_storage" 20%float in
  let storageCost :=
    (storageGB * rate_of (EBSStorage (pricing e)) "gp2")%float in
  let monthlyCost := ((hourlyRate * 730) + storageCost)%float in
  (monthlyCost,
   "RDS " ++ instanceClass ++ " + " ++ Go.fmt_f0 storageGB ++ "GB storage",
   true).

Definition estimateEBSVolume (e : Estimator) (attrs : gmap string value)
  : float * string * bool :=
  let volumeType := getStringAttr attrs "type" "gp2" in
  let sizeGB := getFloat64Attr attrs "size" 8%float in
  let rate := rate_or_fallback (EBSStorage (pricing e)) volumeType "gp2" in
  let monthlyCost := (sizeGB * rate)%float in
  (monthlyCost, "EBS " ++ volumeType ++ " " ++ Go.fmt_f0 sizeGB ++ "GB",
   true).

Definition estimateALB (e : Estimator) (attrs : gmap string value)
  : float * string * bool :=
  let monthlyCost := (rate_of (LoadBalancers (pricing e)) "alb" * 730)%float in
  (monthlyCost, "Application Load Balancer", true).

Definition estimateELB (e : Estimator) (attrs : gmap string value)
  : float * string * bool :=
  let monthlyCost :=
    (rate_of (LoadBalancers (pricing e)) "classic" * 730)%float in
  (monthlyCost, "Classic Load Balancer", true).

Definition estimateNATGateway (e : Estimator) (attrs : gmap string value)
  : float * string * bool :=
  let monthlyCost := (NATGateway (pricing e) * 730)%float in
  (monthlyCost, "NAT Gateway", true).

Definition estimateElasticache (e : Estimator) (attrs : gmap string value)
  : float * string * bool :=
  let nodeType := getStringAttr attrs "node_type" "cache.t3.micro" in
  let numNodes := getFloat64Attr attrs "num_cache_nodes" 1%float in
  let hourlyRate :=
    rate_or_fallback (Elasticache (pricing e)) nodeType "cache.t3.micro" in
  let monthlyCost := (hourlyRate * 730 * numNodes)%float in
  (monthlyCost, "Elasticache " ++ nodeType ++ " x" ++ Go.fmt_f0 numNodes,
   true).

Definition estimateLambda (e : Estimator) (attrs : gmap string value)
  : float * string * bool :=
  let memoryMB := getFloat64Attr attrs "memory_size" 128%float in
  let monthlyCost :=
    ((memoryMB / 1024) * 0.0000166667 * 100 * 1000000 / 1000)%float in
  (monthlyCost, "Lambda " ++ Go.fmt_f0 memoryMB ++ "MB (estimated)", true).

Definition estimateS3Bucket (e : Estimator) (attrs : gmap string value)
  : float * string * bool :=
  (0.023%float, "S3 Bucket (minimal estimate)", true).

Definition estimateEKSCluster (e : Estimator) (attrs : gmap string value)
  : float * string * bool :=
  let monthlyCost := (EKSCluster (pricing e) * 730)%float in
  (monthlyCost, "EKS Cluster", true).

(** The constant [0.25*0.04048 + 0.5*0.004445] is folded exactly by the Go
    compiler to [0.0123425] before it is rounded to binary64. *)
Definition estimateECSService (e : Estimator) (attrs : gmap string value)
  : float * string * bool :=
  let desiredCount := getFloat64Attr attrs "desired_count" 1%float in
  let monthlyCost := (desiredCount * 0.0123425 * 730)%float in
  (monthlyCost,
   "ECS Service (" ++ Go.fmt_f0 desiredCount ++ " tasks, Fargate estimate)",
   true).

Definition estimateGCPInstance (e : Estimator) (attrs : gmap string value)
  : float * string * bool :=
  let machineType := getStringAttr attrs "machine_type" "e2-micro" in
  let hourlyRate :=
    rate_or_fallback (GCPInstances (pricing e)) machineType "e2-micro" in
  let monthlyCost := (hourlyRate * 730)%float in
  (monthlyCost, "GCP " ++ machineType, true).

Definition estimateAzureVM (e : Estimator) (attrs : gmap string value)
  : float * string * bool :=
  let size := getStringAttr attrs "size" "Standard_B1s" in
  let size :=
    if bool_decide (size = "") then
      getStringAttr attrs "vm_size" "Standard_B1s"
    else size in
  let hourlyRate :=
    rate_or_fallback (AzureVMs (pricing e)) size "Standard_B1s" in
  let monthlyCost := (hourlyRate * 730)%float in
  (monthlyCost, "Azure " ++ size, true).

(** The [switch resourceType] of [estimateResourceCost], as the handler a
    type tag selects; [None] is the [default] case. *)
Definition handler_of (e : Estimator) (resourceType : string)
  : option (gmap string value -> float * string * bool) :=
  if bool_decide (resourceType = "aws_instance") then
    Some (estimateEC2Instance e)
  else if bool_decide (resourceType = "aws_db_instance") then
    Some (estimateRDSInstance e)
  else if bool_decide (resourceType = "aws_ebs_volume") then
    Some (estimateEBSVolume e)
  else if bool_decide (resourceType = "aws_lb")
          || bool_decide (resourceType = "aws_alb") then
    Some (estimateALB e)
  else if bool_decide (resourceType = "aws_elb") then
    Some (estimateELB e)
  else if bool_decide (resourceType = "aws_nat_gateway") then
    Some (estimateNATGateway e)
  else if bool_decide (resourceType = "aws_elasticache_cluster") then
    Some (estimateElasticache e)
  else if bool_decide (resourceType = "aws_lambda_function") then
    Some (estimateLambda e)
  else if bool_decide (resourceType = "aws_s3_bucket") then
    Some (estimateS3Bucket e)
  else if bool_decide (resourceType = "aws_eks_cluster") then
    Some (estimateEKSCluster e)
  else if bool_decide (resourceType = "aws_ecs_service") then
    Some (estimateECSService e)
  else if bool_decide (resourceType = "google_compute_instance") then
    Some (estimateGCPInstance e)
  else if bool_decide (resourceType = "azurerm_virtual_machine")
          || bool_decide (resourceType = "azurerm_linux_virtual_machine")
          || bool_decide (resourceType = "azurerm_windows_virtual_machine")
  then
    Some (estimateAzureVM e)
  else None.

Definition estimateResourceCost (e : Estimator) (resourceType : string)
  (attrs : attributes)
  : float * string * bool :=
  match attrs with
  | None => (0%float, "no attributes", false)
  | Some attrs =>
      match handler_of e resourceType with
      | Some estimate => estimate attrs
      | None => (0%float, "unsupported resource type", false)
      end
  end.

(** Field assignments on the two result records. *)
Definition set_MonthlyCost (c : float) (x : CostEstimate) : CostEstimate :=
  mkCostEstimate (ResourceAddress x) (ResourceType x) (Action x) c (Details x).

Definition set_Details (d : string) (x : CostEstimate) : CostEstimate :=
  mkCostEstimate (ResourceAddress x) (ResourceType x) (Action x)
    (MonthlyCost x) d.

Definition set_Estimates (l : list CostEstimate) (r : EstimationResult)
  : EstimationResult :=
  mkEstimationResult l (TotalMonthlyCost r) (TotalMonthlyChange r)
    (CreatedResources r) (DestroyedResources r) (UpdatedResources r)
    (UnsupportedTypes r).

Definition set_TotalMonthlyCost (c : float) (r : EstimationResult)
  : EstimationResult :=
  mkEstimationResult (Estimates r) c (TotalMonthlyChange r)
    (CreatedResources r) (DestroyedResources r) (UpdatedResources r)
    (UnsupportedTypes r).

Definition set_TotalMonthlyChange (c : float) (r : EstimationResult)
  : EstimationResult :=
  mkEstimationResult (Estimates r) (TotalMonthlyCost r) c
    (CreatedResources r) (DestroyedResources r) (UpdatedResources r)
    (UnsupportedTypes r).

Definition set_CreatedResources (n : Z) (r : EstimationResult)
  : EstimationResult :=
  mkEstimationResult (Estimates r) (TotalMonthlyCost r) (TotalMonthlyChange r)
    n (DestroyedResources r) (UpdatedResources r) (UnsupportedTypes r).

Definition set_DestroyedResources (n : Z) (r : EstimationResult)
  : EstimationResult :=
  mkEstimationResult (Estimates r) (TotalMonthlyCost r) (TotalMonthlyChange r)
    (CreatedResources r) n (UpdatedResources r) (UnsupportedTypes r).

Definition set_UpdatedResources (n : Z) (r : EstimationResult)
  : EstimationResult :=
  mkEstimationResult (Estimates r) (TotalMonthlyCost r) (TotalMonthlyChange r)
    (CreatedResources r) (DestroyedResources r) n (UnsupportedTypes r).

Definition set_UnsupportedTypes (l : list string) (r : EstimationResult)
  : EstimationResult :=
  mkEstimationResult (Estimates r) (TotalMonthlyCost r) (TotalMonthlyChange r)
    (CreatedResources r) (DestroyedResources r) (UpdatedResources r) l.

(** The state of the loop of [Estimate]: the result under construction and
    the local [unsupportedSet]. *)
Definition loop_state : Type := EstimationResult * gmap string bool.

Definition initial_state : loop_state :=
  (mkEstimationResult [] 0%float 0%float 0%Z 0%Z 0%Z [], ∅).

(** [if !supported && !unsupportedSet[ty] { unsupportedSet[ty] = true;
    result.UnsupportedTypes = append(result.UnsupportedTypes, ty) }] *)
Definition flag_unsupported (supported : bool) (ty : string)
    (st : loop_state) : loop_state :=
  let '(result, unsupportedSet) := st in
  if negb supported && negb (default false (unsupportedSet !! ty)) then
    (set_UnsupportedTypes (UnsupportedTypes result ++ [ty]) result,
     <[ ty := true ]> unsupportedSet)
  else st.

(** The four cases of the [switch] on the action list, in source order;
    [OtherAction] is the fall-through when no case matches. *)
Inductive action_case : Type :=
  | CreateOnly | DeleteOnly | Replace | Update | OtherAction.

Definition classify (actions : list string) : action_case :=
  if containsAction actions "create" && negb (containsAction actions "delete")
  then CreateOnly
  else if containsAction actions "delete"
          && negb (containsAction actions "create")
  then DeleteOnly
  else if containsAction actions "create" && containsAction actions "delete"
  then Replace
  else if containsAction actions "update" then Update
  else OtherAction.

Section Estimate.

Variable e : Estimator.

(** One iteration of the [for _, rc := range p.ResourceChanges] loop. *)
Definition process_change (st : loop_state) (rc : ResourceChange)
  : loop_state :=
  let actions := Actions (Change_ rc) in
  let action := Go.Join actions "+" in
  if bool_decide (action = "no-op") || bool_decide (action = "") then st
  else
    let estimate :=
      mkCostEstimate (Address rc) (Type_ rc) action 0%float "" in
    let '(estimate, (result, unsupportedSet)) :=
      match classify actions with
      | CreateOnly =>
          let '(cost, details, supported) :=
            estimateResourceCost e (Type_ rc) (After (Change_ rc)) in
          let '(result, unsupportedSet) :=
            flag_unsupported supported (Type_ rc) st in
          (set_Details details (set_MonthlyCost cost estimate),
           (set_CreatedResources (Go.incr (CreatedResources result))
              (set_TotalMonthlyChange
                 (TotalMonthlyChange result + cost)%float result),
            unsupportedSet))
      | DeleteOnly =>
          let '(cost, details, supported) :=
            estimateResourceCost e (Type_ rc) (Before (Change_ rc)) in
          let '(result, unsupportedSet) :=
            flag_unsupported supported (Type_ rc) st in
          (set_Details (details ++ " (removed)")
             (set_MonthlyCost (- cost)%float estimate),
           (set_DestroyedResources (Go.incr (DestroyedResources result))
              (set_TotalMonthlyChange
                 (TotalMonthlyChange result - cost)%float result),
            unsupportedSet))
      | Replace =>
          let '(oldCost, _, _) :=
            estimateResourceCost e (Type_ rc) (Before (Change_ rc)) in
          let '(newCost, details, supported) :=
            estimateResourceCost e (Type_ rc) (After (Change_ rc)) in
          let '(result, unsupportedSet) :=
            flag_unsupported supported (Type_ rc) st in
          (set_Details (details ++ " (replaced)")
             (set_MonthlyCost (newCost - oldCost)%float estimate),
           (set_UpdatedResources (Go.incr (UpdatedResources result))
              (set_TotalMonthlyChange
                 (TotalMonthlyChange result + (newCost - oldCost))%float
                 result),
            unsupportedSet))
      | Update =>
          let '(oldCost, _, _) :=
            estimateResourceCost e (Type_ rc) (Before (Change_ rc)) in
          let '(newCost, details, supported) :=
            estimateResourceCost e (Type_ rc) (After (Change_ rc)) in
          let '(result, unsupportedSet) :=
            flag_unsupported supported (Type_ rc) st in
          (set_Details (details ++ " (updated)")
             (set_MonthlyCost (newCost - oldCost)%float estimate),
           (set_UpdatedResources (Go.incr (UpdatedResources result))
              (set_TotalMonthlyChange
                 (TotalMonthlyChange result + (newCost - oldCost))%float
                 result),
            unsupportedSet))
      | OtherAction => (estimate, st)
      end in
    (set_Estimates (Estimates result ++ [estimate]) result, unsupportedSet).

(** The whole loop, from the freshly allocated result. *)
Definition run_loop (changes : list ResourceChange) : loop_state :=
  fold_left process_change changes initial_state.

(** Go's [error] interface value; [None] is [nil]. *)
Definition error : Type := string.

Definition Estimate (p : Plan) : EstimationResult * option error :=
  let '(result, _) := run_loop (ResourceChanges p) in
  (set_TotalMonthlyCost (TotalMonthlyChange result) result, None).

End Estimate.

(** ** Go primitives used by the prompt *)

Module GoText.

(** Nearest integer to [m * 2^e * scale], ties to even. *)
Definition round_scaled (m : positive) (e : Z) (scale : Z) : Z :=
  if (0 <=? e)%Z then (Z.pos m * 2 ^ e * scale)%Z
  else
    let n := (Z.pos m * scale)%Z in
    let d := (2 ^ (- e))%Z in
    let q := (n / d)%Z in
    let r := (n mod d)%Z in
    match (2 * r ?= d)%Z with
    | Lt => q
    | Gt => (q + 1)%Z
    | Eq => if Z.even q then q else (q + 1)%Z
    end.

(** [n] in decimal, left-padded with zeros to two digits. *)
Definition two_digits (n : Z) : string :=
  if (n <? 10)%Z then "0" ++ Go.decimal n else Go.decimal n.

(** [fmt.Sprintf("%.2f", f)] *)
Definition fmt_f2 (f : float) : string :=
  match Prim2SF f with
  | S754_nan => "NaN"
  | S754_infinity false => "+Inf"
  | S754_infinity true => "-Inf"
  | S754_zero false => "0.00"
  | S754_zero true => "-0.00"
  | S754_finite s m e =>
      let n := round_scaled m e 100 in
      (if s then "-" else "") ++ Go.decimal (n / 100) ++ "."
        ++ two_digits (n mod 100)
  end.

(** The bytes '\n' and ESC ('\033'). *)
Definition newline : ascii := "010"%char.
Definition escape : ascii := "027"%char.

(** [bufio.Reader.ReadString(delim)] on the bytes still to come: the bytes
    up to and including the first [delim], or everything with the error
    [io.EOF] when [delim] never comes.  Read errors other than the end of
    the input are left out. *)
Fixpoint ReadString (delim : ascii) (input : string)
  : string * option string :=
  match input with
  | EmptyString => ("", Some "EOF")
  | String c rest =>
      if bool_decide (c = delim) then (String c "", None)
      else let '(line, err) := ReadString delim rest in (String c line, err)
  end.

(** [strings.ToLower] and [strings.TrimSpace] as Go computes them on ASCII
    strings, byte by byte; on bytes above 127 Go decodes UTF-8 instead, so
    the properties that go through these two assume [ascii_only]. *)
Definition lower_byte (c : ascii) : ascii :=
  let n := nat_of_ascii c in
  if (65 <=? n)%nat && (n <=? 90)%nat then ascii_of_nat (n + 32) else c.

Fixpoint ToLower (s : string) : string :=
  match s with
  | EmptyString => EmptyString
  | String c rest => String (lower_byte c) (ToLower rest)
  end.

(** '\t', '\n', '\v', '\f', '\r' and ' '. *)
Definition is_space (c : ascii) : bool :=
  let n := nat_of_ascii c in
  ((9 <=? n)%nat && (n <=? 13)%nat) || (n =? 32)%nat.

Fixpoint trim_left (s : string) : string :=
  match s with
  | EmptyString => EmptyString
  | String c rest => if is_space c then trim_left rest else s
  end.

Fixpoint trim_right (s : string) : string :=
  match s with
  | EmptyString => EmptyString
  | String c rest =>
      match trim_right rest with
      | EmptyString => if is_space c then EmptyString else String c ""
      | t => String c t
      end
  end.

Definition TrimSpace (s : string) : string := trim_right (trim_left s).

Fixpoint ascii_only (s : string) : bool :=
  match s with
  | EmptyString => true
  | String c rest => (nat_of_ascii c <? 128)%nat && ascii_only rest
  end.

End GoText.

(** ** internal/prompt/prompt.go *)

(** What a prompt function did: its two results and the text it printed to
    the standard output. *)
Record prompted : Type := mkPrompted {
  confirmed : bool;
  failure : option error;
  printed : string
}.

Definition ansi (code : string) : string :=
  String GoText.escape ("[" ++ code ++ "m").

Definition additional_cost_message (monthlyCostChange : float) : string :=
  String GoText.newline
    (ansi "1;33" ++ "Hey, these changes will cost an additional $"
     ++ GoText.fmt_f2 monthlyCostChange ++ "/month. Proceed? [y/N]"
     ++ ansi "0" ++ " ").

Definition savings_message (monthlyCostChange : float) : string :=
  String GoText.newline
    (ansi "1;32" ++ "These changes will save $"
     ++ GoText.fmt_f2 (- monthlyCostChange)%float
     ++ "/month. Proceed? [y/N]" ++ ansi "0" ++ " ").

Definition no_change_message : string :=
  String GoText.newline
    (ansi "1;34" ++ "No significant cost change detected. Proceed? [y/N]"
     ++ ansi "0" ++ " ").

(** [stdin] holds the bytes that the standard input still delivers. *)
Definition ConfirmApply (monthlyCostChange : float) (stdin : string)
  : prompted :=
  let message :=
    if (0 <? monthlyCostChange)%float then
      additional_cost_message monthlyCostChange
    else if (monthlyCostChange <? 0)%float then
      savings_message monthlyCostChange
    else no_change_message in
  let '(response, err) := GoText.ReadString GoText.newline stdin in
  match err with
  | Some err =>
      mkPrompted false (Some ("failed to read response: " ++ err)) message
  | None =>
      let response := GoText.TrimSpace (GoText.ToLower response) in
      mkPrompted
        (bool_decide (response = "y") || bool_decide (response = "yes"))
        None message
  end.

Definition within_threshold_message (monthlyCostChange threshold : float)
  : string :=
  ansi "1;32" ++ "Cost change ($" ++ GoText.fmt_f2 monthlyCostChange
    ++ "/month) is within threshold ($" ++ GoText.fmt_f2 threshold
    ++ "). Proceeding..." ++ ansi "0" ++ String GoText.newline "".

Definition ConfirmWithThreshold (monthlyCostChange threshold : float)
    (stdin : string) : prompted :=
  if (monthlyCostChange <=? threshold)%float then
    mkPrompted true None
      (within_threshold_message monthlyCostChange threshold)
  else ConfirmApply monthlyCostChange stdin.

(** ** Sample inputs *)

Definition attrs_of (kvs : list (string * value)) : attributes :=
  Some (list_to_map kvs).

Definition change_of (addr ty : string) (actions : list string)
    (before after : attributes) : ResourceChange :=
  mkResourceChange addr "managed" ty "x" "aws"
    (mkChange actions before after).

Definition plan_of (changes : list ResourceChange) : Plan :=
  mkPlan "1.2" "1.5.0" changes.

(** [p] with [rc] appended to its resource changes. *)
Definition append_change (p : Plan) (rc : ResourceChange) : Plan :=
  mkPlan (FormatVersion p) (TerraformVersion p) (ResourceChanges p ++ [rc]).

(** The three components of what a pricing rule returns. *)
Definition cost_of (r : float * string * bool) : float := r.1.1.
Definition details_of (r : float * string * bool) : string := r.1.2.
Definition supported_of (r : float * string * bool) : bool := r.2.

(** The joined action label is one that the loop skips. *)
Definition skipped (rc : ResourceChange) : bool :=
  let action := Go.Join (Actions (Change_ rc)) "+" in
  bool_decide (action = "no-op") || bool_decide (action = "").

(** ** Binary64 values: signs and zeros *)

Module F64.

Local Open Scope Z_scope.

(** Number of binary digits of the mantissa being shifted. *)
Definition digits (mrs : shr_record) : Z := Zdigits2 (shr_m mrs).

(** [x] is a zero, a finite number or an infinity of sign [s]. *)
Definition signed (s : bool) (x : spec_float) : Prop :=
  match x with
  | S754_zero s' | S754_infinity s' | S754_finite s' _ _ => s' = s
  | S754_nan => False
  end.

(** [x] is not a zero. *)
Definition nonzero (x : spec_float) : Prop :=
  match x with S754_zero _ => False | _ => True end.

(** [x] is the negative zero. *)
Definition neg_zero (x : float) : Prop := Prim2SF x = S754_zero true.

(** Go's [0 <= x]: false on NaN, true on both zeros. *)
Definition nonneg (x : float) : bool := (0 <=? x)%float.

(** [c] is finite and strictly positive. *)
Definition pos_finite (c : float) : bool :=
  match Prim2SF c with
  | S754_finite false _ _ => true
  | _ => false
  end.

(** [nonneg] on the specification side. *)
Definition sf_nonneg (x : spec_float) : Prop :=
  match x with
  | S754_zero _ => True
  | S754_infinity s | S754_finite s _ _ => s = false
  | S754_nan => False
  end.

End F64.

(** ** Vocabulary of the properties *)

(** The record appended for [rc], given its cost and detail string. *)
Definition record_for (rc : ResourceChange) (cost : float)
    (details : string) : CostEstimate :=
  mkCostEstimate (Address rc) (Type_ rc)
    (Go.Join (Actions (Change_ rc)) "+") cost details.

(** [Replace] and [Update] differ only in the suffix of the detail. *)
Definition suffix_of (c : action_case) : string :=
  match c with
  | DeleteOnly => " (removed)"
  | Replace => " (replaced)"
  | Update => " (updated)"
  | _ => ""
  end.

(** Loop invariant for the counters: none is negative and together they
    count at most [n] changes. *)
Definition counters_within (n : Z) (r : EstimationResult) : Prop :=
  (0 <= CreatedResources r /\ 0 <= DestroyedResources r
   /\ 0 <= UpdatedResources r
   /\ CreatedResources r + DestroyedResources r + UpdatedResources r <= n)%Z.

(** The estimates' monthly costs, added up in list order from zero. *)
Definition sum_costs (l : list CostEstimate) : float :=
  fold_left (fun acc est => (acc + MonthlyCost est)%float) l 0%float.

(** Loop invariant: the running total is the sum of the records so far,
    and it is never the negative zero. *)
Definition total_invariant (st : loop_state) : Prop :=
  TotalMonthlyChange st.1 = sum_costs (Estimates st.1)
  /\ ~ F64.neg_zero (TotalMonthlyChange st.1).

(** The six price tables that are looked up with a declared size or class,
    each with the fallback identifier its pricing rule names. *)
Inductive family : Type :=
  | EC2Family | RDSFamily | EBSFamily | ElasticacheFamily | GCPFamily
  | AzureFamily.

Definition family_table (p : PricingData) (f : family) : gmap string float :=
  match f with
  | EC2Family => EC2Instances p
  | RDSFamily => RDSInstances p
  | EBSFamily => EBSStorage p
  | ElasticacheFamily => Elasticache p
  | GCPFamily => GCPInstances p
  | AzureFamily => AzureVMs p
  end.

Definition family_fallback (f : family) : string :=
  match f with
  | EC2Family => "t3.micro"
  | RDSFamily => "db.t3.micro"
  | EBSFamily => "gp2"
  | ElasticacheFamily => "cache.t3.micro"
  | GCPFamily => "e2-micro"
  | AzureFamily => "Standard_B1s"
  end.

(** The rate a rule of family [f] computes for the declared class [k]. *)
Definition family_rate (p : PricingData) (f : family) (k : string) : float :=
  rate_or_fallback (family_table p f) k (family_fallback f).

(** The pricing rule of each family. *)
Definition family_rule (e : Estimator) (f : family)
  : gmap string value -> float * string * bool :=
  match f with
  | EC2Family => estimateEC2Instance e
  | RDSFamily => estimateRDSInstance e
  | EBSFamily => estimateEBSVolume e
  | ElasticacheFamily => estimateElasticache e
  | GCPFamily => estimateGCPInstance e
  | AzureFamily => estimateAzureVM e
  end.

(** The class that the rule of family [f] reads from the attributes. *)
Definition declared_class (f : family) (attrs : gmap string value) : string :=
  match f with
  | EC2Family => getStringAttr attrs "instance_type" "t3.micro"
  | RDSFamily => getStringAttr attrs "instance_class" "db.t3.micro"
  | EBSFamily => getStringAttr attrs "type" "gp2"
  | ElasticacheFamily => getStringAttr attrs "node_type" "cache.t3.micro"
  | GCPFamily => getStringAttr attrs "machine_type" "e2-micro"
  | AzureFamily =>
      let size := getStringAttr attrs "size" "Standard_B1s" in
      if bool_decide (size = "") then
        getStringAttr attrs "vm_size" "Standard_B1s"
      else size
  end.

(** How the rate enters the monthly cost of each rule. *)
Definition family_cost (e : Estimator) (f : family)
    (attrs : gmap string value) (rate : float) : float :=
  match f with
  | EC2Family | GCPFamily | AzureFamily => (rate * 730)%float
  | RDSFamily =>
      (rate * 730
       + getFloat64Attr attrs "allocated_storage" 20
         * rate_of (EBSStorage (pricing e)) "gp2")%float
  | EBSFamily => (getFloat64Attr attrs "size" 8 * rate)%float
  | ElasticacheFamily =>
      (rate * 730 * getFloat64Attr attrs "num_cache_nodes" 1)%float
  end.

(** The entry with the lowest rate of a price table (the first one among
    equals), as the specification understands "smallest class". *)
Fixpoint cheapest (table : list (string * float)) : option (string * float) :=
  match table with
  | [] => None
  | (k, v) :: rest =>
      match cheapest rest with
      | Some (k', v') => if (v' <? v)%float then Some (k', v') else Some (k, v)
      | None => Some (k, v)
      end
  end.

(** The elements of [l] in order of first occurrence, each kept once. *)
Fixpoint first_occurrences (l : list string) : list string :=
  match l with
  | [] => []
  | x :: rest => x :: filter (λ y, y ≠ x) (first_occurrences rest)
  end.

(** [rc] reaches one of the four cases and its pricing comes back
    unsupported: the change makes the loop flag its type. *)
Definition flagged (e : Estimator) (rc : ResourceChange) : bool :=
  negb (skipped rc)
  && match classify (Actions (Change_ rc)) with
     | CreateOnly | Replace | Update =>
         negb (supported_of
                 (estimateResourceCost e (Type_ rc) (After (Change_ rc))))
     | DeleteOnly =>
         negb (supported_of
                 (estimateResourceCost e (Type_ rc) (Before (Change_ rc))))
     | OtherAction => false
     end.

(** The types flagged by a list of changes, one entry per flagging change. *)
Definition flagged_types (e : Estimator) (changes : list ResourceChange)
  : list string :=
  Type_ <$> filter (λ rc, flagged e rc = true) changes.

(** Loop invariant: the unsupported list holds the flagged types in order
    of first occurrence, and [unsupportedSet] is its membership test. *)
Definition unsupported_invariant (e : Estimator)
    (changes : list ResourceChange) (st : loop_state) : Prop :=
  UnsupportedTypes st.1 = first_occurrences (flagged_types e changes)
  /\ forall ty : string,
       default false (st.2 !! ty) = true <-> ty ∈ UnsupportedTypes st.1.

(** A numeric attribute value that is not negative (and not NaN); values
    that [getFloat64Attr] does not read as numbers pass. *)
Definition numeric_nonneg (v : value) : bool :=
  match v with
  | VFloat64 f => F64.nonneg f
  | VInt n | VInt64 n => (0 <=? n)%Z
  | _ => true
  end.

(** The attribute [key], when present, is not a negative number. *)
Definition attr_nonneg (attrs : gmap string value) (key : string) : bool :=
  match attrs !! key with
  | Some v => numeric_nonneg v
  | None => true
  end.

(** The numeric attribute that the pricing rule of a resource type reads. *)
Definition numeric_attr (resourceType : string) : option string :=
  if bool_decide (resourceType = "aws_db_instance") then
    Some "allocated_storage"
  else if bool_decide (resourceType = "aws_ebs_volume") then Some "size"
  else if bool_decide (resourceType = "aws_elasticache_cluster") then
    Some "num_cache_nodes"
  else if bool_decide (resourceType = "aws_lambda_function") then
    Some "memory_size"
  else if bool_decide (resourceType = "aws_ecs_service") then
    Some "desired_count"
  else None.

(** The declared size or count that enters the price is not negative. *)
Definition declared_nonneg (resourceType : string) (a : attributes) : bool :=
  match a, numeric_attr resourceType with
  | Some attrs, Some key => attr_nonneg attrs key
  | _, _ => true
  end.

(** The rule selected for each type tag, as a relation. *)
Inductive rule_for (e : Estimator)
  : string -> (gmap string value -> float * string * bool) -> Prop :=
  | rule_ec2 : rule_for e "aws_instance" (estimateEC2Instance e)
  | rule_rds : rule_for e "aws_db_instance" (estimateRDSInstance e)
  | rule_ebs : rule_for e "aws_ebs_volume" (estimateEBSVolume e)
  | rule_lb : rule_for e "aws_lb" (estimateALB e)
  | rule_alb : rule_for e "aws_alb" (estimateALB e)
  | rule_elb : rule_for e "aws_elb" (estimateELB e)
  | rule_nat : rule_for e "aws_nat_gateway" (estimateNATGateway e)
  | rule_cache :
      rule_for e "aws_elasticache_cluster" (estimateElasticache e)
  | rule_lambda : rule_for e "aws_lambda_function" (estimateLambda e)
  | rule_s3 : rule_for e "aws_s3_bucket" (estimateS3Bucket e)
  | rule_eks : rule_for e "aws_eks_cluster" (estimateEKSCluster e)
  | rule_ecs : rule_for e "aws_ecs_service" (estimateECSService e)
  | rule_gcp : rule_for e "google_compute_instance" (estimateGCPInstance e)
  | rule_azure : rule_for e "azurerm_virtual_machine" (estimateAzureVM e)
  | rule_azure_linux :
      rule_for e "azurerm_linux_virtual_machine" (estimateAzureVM e)
  | rule_azure_windows :
      rule_for e "azurerm_windows_virtual_machine" (estimateAzureVM e).

(** An hourly rate whose monthly amount is finite and positive. *)
Definition monthly_pos (v : float) : bool := F64.pos_finite (v * 730).

(** ** More sample inputs *)

Definition replace_sample : ResourceChange :=
  change_of "aws_instance.web" "aws_instance" ["delete"; "create"]
    (attrs_of [("instance_type", VString "t3.micro")])
    (attrs_of [("instance_type", VString "t3.large")]).

Definition read_sample : ResourceChange :=
  change_of "data.aws_ami.ubuntu" "aws_ami" ["read"] None (attrs_of []).


Definition nil_after_sample : ResourceChange :=
  change_of "aws_instance.web" "aws_instance" ["create"] None None.

Definition negative_size_sample : ResourceChange :=
  change_of "aws_ebs_volume.data" "aws_ebs_volume" ["create"] None
    (attrs_of [("type", VString "gp2"); ("size", VFloat64 (-100))]).

Definition gateway_sample : ResourceChange :=
  change_of "aws_nat_gateway.main" "aws_nat_gateway" ["create"] None
    (attrs_of []).

Definition create_sample : ResourceChange :=
  change_of "aws_elasticache_cluster.c" "aws_elasticache_cluster" ["create"]
    None
    (attrs_of [("node_type", VString "cache.m5.large");
               ("num_cache_nodes", VFloat64 3)]).

(** ** Vocabulary of the further properties *)

#[global] Instance action_case_eq_dec : EqDecision action_case.
Proof. solve_decision. Defined.

(** The number of changes of a list that fall in case [c] of the switch. *)
Definition count_case (c : action_case) (changes : list ResourceChange) : Z :=
  Z.of_nat
    (length (filter (λ rc, classify (Actions (Change_ rc)) = c) changes)).

(** The changes that the loop does not skip. *)
Definition estimated (changes : list ResourceChange) : list ResourceChange :=
  filter (λ rc, skipped rc = false) changes.

(** Address, type and action label: what a record says of its change. *)
Definition record_key (x : CostEstimate) : string * string * string :=
  (ResourceAddress x, ResourceType x, Action x).

Definition change_key (rc : ResourceChange) : string * string * string :=
  (Address rc, Type_ rc, Go.Join (Actions (Change_ rc)) "+").

(** The attribute map whose pricing decides the supported flag of a
    change: before for a delete-only change, after otherwise. *)
Definition applicable (rc : ResourceChange) : attributes :=
  match classify (Actions (Change_ rc)) with
  | DeleteOnly => Before (Change_ rc)
  | _ => After (Change_ rc)
  end.

(** [rc] with its action list replaced by [actions]. *)
Definition with_actions (actions : list string) (rc : ResourceChange)
  : ResourceChange :=
  mkResourceChange (Address rc) (Mode rc) (Type_ rc) (Name rc)
    (ProviderName rc)
    (mkChange actions (Before (Change_ rc)) (After (Change_ rc))).

(** The byte [c] occurs in [s]. *)
Fixpoint contains_char (c : Ascii.ascii) (s : string) : bool :=
  match s with
  | EmptyString => false
  | String c' rest => if bool_decide (c' = c) then true
                      else contains_char c rest
  end.

(** Go's [x <= 0]. *)
Definition nonpos (x : float) : bool := (x <=? 0)%float.

(** [x] is a zero or a finite number: neither an infinity nor NaN. *)
Definition finite (x : float) : bool :=
  match Prim2SF x with
  | S754_zero _ | S754_finite _ _ _ => true
  | _ => false
  end.

(** [lo <= v * 730 <= hi]. *)
Definition monthly_between (lo hi : float) (v : float) : bool :=
  (lo <=? v * 730)%float && (v * 730 <=? hi)%float.

(** The changes that get a record without reaching a case of the switch. *)
Definition unmatched (changes : list ResourceChange) : list ResourceChange :=
  filter (λ rc, skipped rc = false
                ∧ classify (Actions (Change_ rc)) = OtherAction) changes.

(** Every byte of [s] is ASCII white space. *)
Fixpoint all_space (s : string) : bool :=
  match s with
  | EmptyString => true
  | String c rest => GoText.is_space c && all_space rest
  end.

(** [x] is a zero, or negative (finite or infinite). *)
Definition sf_nonpos (x : spec_float) : Prop :=
  match x with
  | S754_zero _ => True
  | S754_infinity s | S754_finite s _ _ => s = true
  | S754_nan => False
  end.

(** A change that can only raise the total: a creation whose declared size
    or count is not negative, or a change that leaves the total alone. *)
Definition adds_only (rc : ResourceChange) : bool :=
  match classify (Actions (Change_ rc)) with
  | CreateOnly => declared_nonneg (Type_ rc) (After (Change_ rc))
  | OtherAction => true
  | _ => false
  end.

(** A change that can only lower the total. *)
Definition removes_only (rc : ResourceChange) : bool :=
  match classify (Actions (Change_ rc)) with
  | DeleteOnly => declared_nonneg (Type_ rc) (Before (Change_ rc))
  | OtherAction => true
  | _ => false
  end.

(** The plan that lists the changes of [p], then those of [q]. *)
Definition append_plan (p q : Plan) : Plan :=
  mkPlan (FormatVersion p) (TerraformVersion p)
    (ResourceChanges p ++ ResourceChanges q).

(** ** Further sample inputs *)

Definition prior_plan_sample : Plan :=
  plan_of [change_of "aws_eks_cluster.main" "aws_eks_cluster" ["create"] None
             (attrs_of [])].

Definition delete_sample : ResourceChange :=
  change_of "aws_db_instance.main" "aws_db_instance" ["delete"]
    (attrs_of [("instance_class", VString "db.m5.large");
               ("allocated_storage", VFloat64 50)])
    None.

Definition update_sample : ResourceChange :=
  change_of "aws_ecs_service.api" "aws_ecs_service" ["update"]
    (attrs_of [("desired_count", VFloat64 2)])
    (attrs_of [("desired_count", VFloat64 4)]).

Definition mixed_sample : list ResourceChange :=
  [ change_of "aws_instance.a" "aws_instance" ["create"] None
      (attrs_of [("instance_type", VString "m5.large")]);
    change_of "aws_instance.b" "aws_instance" ["no-op"]
      (attrs_of []) (attrs_of []);
    change_of "aws_instance.c" "aws_instance" ["delete"; "create"]
      (attrs_of [("instance_type", VString "t3.small")])
      (attrs_of [("instance_type", VString "t3.large")]);
    change_of "data.aws_ami.u" "aws_ami" ["read"] None (attrs_of []);
    change_of "aws_elb.old" "aws_elb" ["delete"] (attrs_of []) None;
    change_of "aws_lambda_function.f" "aws_lambda_function" ["update"]
      (attrs_of [("memory_size", VFloat64 128)])
      (attrs_of [("memory_size", VFloat64 512)]) ].

Definition unchanged_sample : ResourceChange :=
  change_of "aws_instance.web" "aws_instance" ["create"; "delete"]
    (attrs_of [("instance_type", VString "c5.xlarge")])
    (attrs_of [("instance_type", VString "c5.xlarge")]).

Definition teardown_sample : list ResourceChange :=
  [ change_of "aws_instance.a" "aws_instance" ["delete"]
      (attrs_of [("instance_type", VString "m5.large")]) None;
    change_of "aws_instance.b" "aws_instance" ["no-op"]
      (attrs_of []) (attrs_of []);
    change_of "aws_ebs_volume.v" "aws_ebs_volume" ["delete"]
      (attrs_of [("size", VFloat64 200)]) None ].

Definition rollout_sample : list ResourceChange :=
  [ change_of "aws_instance.a" "aws_instance" ["create"] None
      (attrs_of [("instance_type", VString "m5.large")]);
    change_of "data.aws_ami.u" "aws_ami" ["read"] None (attrs_of []);
    change_of "aws_ecs_service.s" "aws_ecs_service" ["create"] None
      (attrs_of [("desired_count", VFloat64 3)]) ].

(** ** Worked examples *)

(** The README's breakdown line for a t3.large instance: 0.0832 x 730. *)
Example ec2_t3_large_created :
  (Estimate NewEstimator
     (plan_of [change_of "aws_instance.web" "aws_instance" ["create"] None
                 (attrs_of [("instance_type", VString "t3.large")])])).1
  = mkEstimationResult
      [mkCostEstimate "aws_instance.web" "aws_instance" "create"
         (0.0832 * 730)%float "EC2 t3.large"]
      (0.0832 * 730)%float (0.0832 * 730)%float 1 0 0 [].
Proof. vm_compute. reflexivity. Qed.

(** A 100 GB gp2 volume destroyed alone: the delta is -(100 x 0.10). *)
Example ebs_volume_destroyed :
  (Estimate NewEstimator
     (plan_of [change_of "aws_ebs_volume.data" "aws_ebs_volume" ["delete"]
                 (attrs_of [("type", VString "gp2"); ("size", VFloat64 100)])
                 None])).1
  = mkEstimationResult
      [mkCostEstimate "aws_ebs_volume.data" "aws_ebs_volume" "delete"
         (-10)%float "EBS gp2 100GB (removed)"]
      (-10)%float (-10)%float 0 1 0 [].
Proof. vm_compute. reflexivity. Qed.

(** An unrecognized type created alone: cost 0, listed once, counted. *)
Example unknown_type_created :
  (Estimate NewEstimator
     (plan_of [change_of "aws_sqs_queue.q" "aws_sqs_queue" ["create"] None
                 (attrs_of [])])).1
  = mkEstimationResult
      [mkCostEstimate "aws_sqs_queue.q" "aws_sqs_queue" "create" 0%float
         "unsupported resource type"]
      0%float 0%float 1 0 0 ["aws_sqs_queue"].
Proof. vm_compute. reflexivity. Qed.

(** ** Basic facts about the Go primitives *)

Lemma containsAction_elem_of (actions : list string) (target : string) :
  containsAction actions target = true <-> target ∈ actions.
Proof.
  induction actions as [|a rest IH]; simpl.
  - split; [discriminate | intros H; inversion H].
  - case_bool_decide as Ha.
    + subst a. split; [intros _; left | reflexivity].
    + rewrite IH. split; [intros H; now right |].
      intros H. inversion H; subst; [congruence | assumption].
Qed.

Lemma string_length_app (s1 s2 : string) :
  String.length (s1 ++ s2) = (String.length s1 + String.length s2)%nat.
Proof. induction s1 as [|c s1 IH]; simpl; [reflexivity | now rewrite IH]. Qed.

Lemma Join_length_ge (elems : list string) (sep a : string) :
  a ∈ elems -> (String.length a <= String.length (Go.Join elems sep))%nat.
Proof.
  induction elems as [|b rest IH]; intros Hin; [inversion Hin|].
  destruct rest as [|c rest'].
  - inversion Hin as [|? ? ? H']; subst; simpl; [lia | inversion H'].
  - change (Go.Join (b :: c :: rest') sep)
      with (b ++ sep ++ Go.Join (c :: rest') sep).
    rewrite !string_length_app.
    inversion Hin; subst; [lia|].
    specialize (IH ltac:(assumption)). lia.
Qed.

Lemma contains_not_skipped (rc : ResourceChange) (target : string) :
  (6 <= String.length target)%nat ->
  containsAction (Actions (Change_ rc)) target = true ->
  skipped rc = false.
Proof.
  intros Hlen Hc. apply containsAction_elem_of in Hc.
  pose proof (Join_length_ge _ "+" _ Hc) as Hj.
  unfold skipped.
  apply orb_false_intro; apply bool_decide_eq_false; intros Heq;
    rewrite Heq in Hj; simpl in Hj; lia.
Qed.

Lemma incr_in_range (n : Z) :
  (Go.int_min <= n < Go.int_max)%Z -> Go.incr n = (n + 1)%Z.
Proof.
  unfold Go.incr, Go.wrap_int, Go.int_min, Go.int_max. intros H.
  rewrite Z.mod_small; lia.
Qed.

(** ** Binary64 arithmetic: signs and zeros

    Facts about IEEE 754 rounding that the accounting below relies on,
    derived from the specification of the primitive operations. *)

Module F64Facts.

Import F64.

Local Open Scope Z_scope.

Lemma shr_1_digits (mrs : shr_record) :
  0 <= shr_m mrs ->
  0 <= shr_m (shr_1 mrs) /\ digits (shr_1 mrs) = Z.max 0 (digits mrs - 1).
Proof.
  destruct mrs as [m r s]. unfold digits, shr_1. cbn [shr_m]. intros Hm.
  destruct m as [|[p|p|]|p]; cbn [shr_m Zdigits2 digits2_pos];
    rewrite ?Pos2Z.inj_succ; lia.
Qed.

Lemma iter_shr_1_digits (p : positive) (mrs : shr_record) :
  0 <= shr_m mrs ->
  0 <= shr_m (SpecFloat.iter_pos shr_1 p mrs)
  /\ digits (SpecFloat.iter_pos shr_1 p mrs) = Z.max 0 (digits mrs - Z.pos p).
Proof.
  revert mrs. induction p as [p IH|p IH|]; intros mrs Hm; simpl.
  - destruct (shr_1_digits mrs Hm) as [H1 E1].
    destruct (IH _ H1) as [H2 E2]. destruct (IH _ H2) as [H3 E3].
    split; [assumption|]. rewrite E3, E2, E1. lia.
  - destruct (IH _ Hm) as [H2 E2]. destruct (IH _ H2) as [H3 E3].
    split; [assumption|]. rewrite E3, E2. lia.
  - apply shr_1_digits; assumption.
Qed.

Lemma shr_m_of_loc (m : Z) (l : location) :
  shr_m (shr_record_of_loc m l) = m.
Proof. destruct l as [|[]]; reflexivity. Qed.

Lemma digits_pos_inv (mrs : shr_record) :
  0 <= shr_m mrs -> 0 < digits mrs -> exists q, shr_m mrs = Z.pos q.
Proof.
  unfold digits. destruct (shr_m mrs) as [|q|q]; simpl; try lia.
  intros _ _. now exists q.
Qed.

(** Shifting a non-negative mantissa keeps it non-negative. *)
Lemma shr_fexp_nonneg (m e : Z) (l : location) :
  0 <= m -> 0 <= shr_m (shr_fexp prec emax m e l).1.
Proof.
  intros Hm. unfold shr_fexp, shr.
  destruct (fexp prec emax (Zdigits2 m + e) - e) as [|p|p]; simpl;
    rewrite ?shr_m_of_loc; try assumption.
  apply iter_shr_1_digits. now rewrite shr_m_of_loc.
Qed.

(** Above the minimal exponent, a positive mantissa stays positive. *)
Lemma shr_fexp_pos (m : positive) (e : Z) (l : location) :
  emin <= e ->
  exists q, shr_m (shr_fexp prec emax (Z.pos m) e l).1 = Z.pos q
            /\ emin <= (shr_fexp prec emax (Z.pos m) e l).2.
Proof.
  intros He. unfold shr_fexp, shr.
  destruct (fexp prec emax (Zdigits2 (Z.pos m) + e) - e) as [|p|p] eqn:Hn;
    simpl; rewrite ?shr_m_of_loc; try (exists m; split; [reflexivity | assumption]).
  pose proof (iter_shr_1_digits p (shr_record_of_loc (Z.pos m) l)) as H.
  rewrite shr_m_of_loc in H. destruct (H ltac:(lia)) as [H1 H2].
  unfold digits in H2 at 2. rewrite shr_m_of_loc in H2. simpl in H2.
  unfold fexp in Hn. simpl Zdigits2 in Hn.
  assert (Hp : Z.pos p < Z.pos (digits2_pos m)).
  { unfold prec, SpecFloat.emin, emax in *. lia. }
  destruct (digits_pos_inv _ H1 ltac:(lia)) as [q Hq].
  exists q. split; [assumption|].
  unfold prec, SpecFloat.emin, emax in *. lia.
Qed.

Lemma round_nearest_even_pos (m : positive) (l : location) :
  exists q, round_nearest_even (Z.pos m) l = Z.pos q.
Proof.
  destruct l as [|[]]; simpl; eauto; destruct m; simpl; eauto.
Qed.

Lemma round_nearest_even_nonneg (m : Z) (l : location) :
  0 <= m -> 0 <= round_nearest_even m l.
Proof.
  intros Hm. destruct l as [|[]]; simpl; try lia.
  destruct (Z.even m); lia.
Qed.

Lemma binary_round_aux_signed (s : bool) (m e : Z) (l : location) :
  0 <= m -> signed s (binary_round_aux prec emax s m e l).
Proof.
  intros Hm. unfold binary_round_aux.
  pose proof (shr_fexp_nonneg m e l Hm) as H1.
  destruct (shr_fexp prec emax m e l) as [mrs1 e1]. simpl in H1.
  pose proof (shr_fexp_nonneg _ e1 loc_Exact
                (round_nearest_even_nonneg _ (loc_of_shr_record mrs1) H1)) as H2.
  destruct (shr_fexp prec emax _ e1 loc_Exact) as [mrs2 e2]. simpl in H2.
  destruct (shr_m mrs2) as [|q|q]; simpl; try reflexivity; try lia.
  destruct (e2 <=? emax - prec); reflexivity.
Qed.

Lemma binary_round_aux_nonzero (s : bool) (m : positive) (e : Z) (l : location) :
  emin <= e -> nonzero (binary_round_aux prec emax s (Z.pos m) e l).
Proof.
  intros He. unfold binary_round_aux.
  destruct (shr_fexp_pos m e l He) as (q1 & Hq1 & He1).
  destruct (shr_fexp prec emax (Z.pos m) e l) as [mrs1 e1]. simpl in Hq1, He1.
  rewrite Hq1.
  destruct (round_nearest_even_pos q1 (loc_of_shr_record mrs1)) as [q2 ->].
  destruct (shr_fexp_pos q2 e1 loc_Exact He1) as (q3 & Hq3 & _).
  destruct (shr_fexp prec emax (Z.pos q2) e1 loc_Exact) as [mrs2 e2]. simpl in Hq3.
  rewrite Hq3. destruct (e2 <=? emax - prec); exact I.
Qed.

Lemma binary_round_signed (s : bool) (m : positive) (e : Z) :
  signed s (binary_round prec emax s m e).
Proof.
  unfold binary_round.
  destruct (shl_align m e _) as [mz ez].
  apply binary_round_aux_signed. lia.
Qed.

Lemma binary_round_nonzero (s : bool) (m : positive) (e : Z) :
  emin <= e -> nonzero (binary_round prec emax s m e).
Proof.
  intros He. unfold binary_round.
  destruct (shl_align m e _) as [mz ez] eqn:Hsh.
  apply binary_round_aux_nonzero.
  unfold shl_align in Hsh.
  destruct (fexp prec emax (Z.pos (digits2_pos m) + e) - e) eqn:Hd;
    inversion Hsh; subst; try assumption.
  unfold fexp. lia.
Qed.

Lemma valid_emin (s : bool) (m : positive) (e : Z) :
  valid_binary (S754_finite s m e) = true -> emin <= e.
Proof.
  unfold SpecFloat.valid_binary, bounded, canonical_mantissa, fexp.
  intros H. apply andb_true_iff in H as [H _]. apply Z.eqb_eq in H. lia.
Qed.

(** ** Addition *)

Lemma SFadd_neg_zero (x y : spec_float) :
  valid_binary x = true -> valid_binary y = true ->
  SF64add x y = S754_zero true ->
  x = S754_zero true /\ y = S754_zero true.
Proof.
  intros Hx Hy.
  destruct x as [sx|sx| |sx mx ex], y as [sy|sy| |sy my ey];
    try solve [ repeat match goal with s : bool |- _ => destruct s end;
                simpl; first [discriminate | auto] ].
  apply valid_emin in Hx, Hy. unfold SF64add, SFadd. intros H.
  match type of H with
  | binary_normalize _ _ ?z _ _ = _ => destruct z as [|q|q]
  end; cbv beta iota delta [binary_normalize] in H.
  - discriminate.
  - pose proof (binary_round_signed false q (Z.min ex ey)) as Hs.
    rewrite H in Hs. simpl in Hs. discriminate.
  - pose proof (binary_round_nonzero true q (Z.min ex ey) ltac:(lia)) as Hz.
    rewrite H in Hz. destruct Hz.
Qed.

(** A sum is [-0] only when both operands are. *)
Lemma add_neg_zero (x y : float) :
  neg_zero (x + y) -> neg_zero x /\ neg_zero y.
Proof.
  unfold neg_zero. rewrite add_spec.
  apply SFadd_neg_zero; apply Prim2SF_valid.
Qed.

Lemma add_zero_r (x : float) : ~ neg_zero x -> (x + 0)%float = x.
Proof.
  unfold neg_zero. intros Hx. apply Prim2SF_inj. rewrite add_spec.
  change (Prim2SF 0) with (S754_zero false).
  destruct (Prim2SF x) as [[]|[]| |s m e]; simpl; congruence.
Qed.

Lemma sub_add_opp (x y : float) : (x - y)%float = (x + - y)%float.
Proof.
  apply Prim2SF_inj. rewrite sub_spec, add_spec, opp_spec.
  destruct (Prim2SF x) as [sx|sx| |sx mx ex],
           (Prim2SF y) as [sy|sy| |sy my ey];
    try (destruct sx); try (destruct sy); try reflexivity.
  all: unfold SF64sub, SF64add, SFsub, SFadd, SFopp, cond_Zopp, negb;
    f_equal.
Qed.

(** ** Signs of products, sums and quotients *)

Lemma nonneg_spec (x : float) : nonneg x = true <-> sf_nonneg (Prim2SF x).
Proof.
  unfold nonneg. rewrite leb_spec.
  change (Prim2SF 0) with (S754_zero false).
  destruct (Prim2SF x) as [s|[]| |[] m e]; unfold SFleb; simpl;
    intuition congruence.
Qed.

Lemma pos_finite_spec (c : float) :
  pos_finite c = true -> exists m e, Prim2SF c = S754_finite false m e.
Proof.
  unfold pos_finite. destruct (Prim2SF c) as [s|s| |[] m e]; try discriminate.
  intros _. eauto.
Qed.

Lemma signed_nonneg (x : spec_float) : signed false x -> sf_nonneg x.
Proof. destruct x; simpl; auto. Qed.

Lemma mul_nonneg_pos (x c : float) :
  nonneg x = true -> pos_finite c = true -> nonneg (x * c) = true.
Proof.
  rewrite !nonneg_spec, mul_spec. intros Hx Hc.
  apply pos_finite_spec in Hc as (m & e & ->).
  destruct (Prim2SF x) as [s|s| |s mx ex]; simpl in Hx |- *; subst; auto.
  apply signed_nonneg, binary_round_aux_signed. lia.
Qed.

Lemma mul_pos_nonneg (c x : float) :
  pos_finite c = true -> nonneg x = true -> nonneg (c * x) = true.
Proof.
  rewrite !nonneg_spec, mul_spec. intros Hc Hx.
  apply pos_finite_spec in Hc as (m & e & ->).
  destruct (Prim2SF x) as [s|s| |s mx ex]; simpl in Hx |- *; subst; auto.
  apply signed_nonneg, binary_round_aux_signed. lia.
Qed.

Lemma add_pos_nonneg (c x : float) :
  pos_finite c = true -> nonneg x = true -> nonneg (c + x) = true.
Proof.
  rewrite !nonneg_spec, add_spec. intros Hc Hx.
  apply pos_finite_spec in Hc as (m & e & ->).
  destruct (Prim2SF x) as [s|s| |s mx ex]; simpl in Hx |- *; subst; auto.
  apply signed_nonneg, binary_round_signed.
Qed.

Lemma div_nonneg_pos (x c : float) :
  nonneg x = true -> pos_finite c = true -> nonneg (x / c) = true.
Proof.
  rewrite !nonneg_spec, div_spec. intros Hx Hc.
  apply pos_finite_spec in Hc as (m & e & ->).
  destruct (Prim2SF x) as [s|s| |s mx ex]; simpl in Hx |- *; subst; auto.
  unfold SF64div, SFdiv, SFdiv_core_binary.
  match goal with
  | |- context [Z.div_eucl ?a ?b] =>
      pose proof (Z.div_pos a b) as Hq; unfold Z.div in Hq;
      destruct (Z.div_eucl a b) as [q r]
  end.
  apply signed_nonneg, binary_round_aux_signed. apply Hq; [|lia].
  match goal with
  | |- 0 <= match ?s with Z0 => _ | Z.pos _ => _ | Z.neg _ => _ end =>
      destruct s eqn:Hs; try lia
  end.
  apply Z.shiftl_nonneg. lia.
Qed.

Lemma pos_finite_nonneg (c : float) : pos_finite c = true -> nonneg c = true.
Proof.
  intros Hc. apply nonneg_spec. apply pos_finite_spec in Hc as (m & e & ->).
  reflexivity.
Qed.

(** ** Conversion from integers *)

Lemma SFldexp_signed (s : bool) (x : spec_float) (e : Z) :
  signed s x -> signed s (SFldexp prec emax x e).
Proof.
  destruct x as [s'|s'| |s' m ex]; simpl; auto.
  intros ->. apply binary_round_signed.
Qed.

Lemma of_uint63_signed (n : Uint63.int) :
  signed false (Prim2SF (of_uint63 n)).
Proof.
  rewrite of_uint63_spec.
  pose proof (Uint63.to_Z_bounded n) as Hn.
  destruct (Uint63.to_Z n) as [|q|q]; simpl; try reflexivity; try lia.
  apply binary_round_signed.
Qed.

Lemma SF2Prim_nonneg (x : spec_float) :
  signed false x -> nonneg (SF2Prim x) = true.
Proof.
  destruct x as [s|s| |s m e]; simpl; try contradiction; intros ->;
    try reflexivity.
  apply nonneg_spec, signed_nonneg. rewrite Z_ldexp_spec.
  apply SFldexp_signed, of_uint63_signed.
Qed.

Lemma of_Z_nonneg (n : Z) :
  0 <= n -> nonneg (SF2Prim (binary_normalize prec emax n 0 false)) = true.
Proof.
  intros Hn. apply SF2Prim_nonneg.
  destruct n as [|q|q]; simpl; try reflexivity; try lia.
  apply binary_round_signed.
Qed.

End F64Facts.

(** ** One iteration of the loop, case by case *)

Section Step.

Variable e : Estimator.

Lemma process_change_skipped (st : loop_state) (rc : ResourceChange) :
  skipped rc = true -> process_change e st rc = st.
Proof.
  unfold skipped, process_change. intros ->. reflexivity.
Qed.

Ltac step_case Hs Hc :=
  unfold process_change; unfold skipped in Hs; rewrite Hs, Hc;
  unfold cost_of, details_of, supported_of, record_for;
  repeat match goal with
    | |- context [estimateResourceCost ?a ?b ?c] =>
        destruct (estimateResourceCost a b c) as [[? ?] ?]
    end;
  simpl;
  match goal with
  | |- context [flag_unsupported ?s ?t ?st] =>
      destruct (flag_unsupported s t st) as [? ?]
  | _ => idtac
  end;
  try match goal with st : loop_state |- _ => destruct st end;
  reflexivity.

Lemma process_change_create (st : loop_state) (rc : ResourceChange) :
  skipped rc = false ->
  classify (Actions (Change_ rc)) = CreateOnly ->
  let res := estimateResourceCost e (Type_ rc) (After (Change_ rc)) in
  let st1 := flag_unsupported (supported_of res) (Type_ rc) st in
  process_change e st rc =
    (mkEstimationResult
       (Estimates st1.1 ++ [record_for rc (cost_of res) (details_of res)])
       (TotalMonthlyCost st1.1)
       (TotalMonthlyChange st1.1 + cost_of res)%float
       (Go.incr (CreatedResources st1.1))
       (DestroyedResources st1.1)
       (UpdatedResources st1.1)
       (UnsupportedTypes st1.1),
     st1.2).
Proof. intros Hs Hc. step_case Hs Hc. Qed.

Lemma process_change_delete (st : loop_state) (rc : ResourceChange) :
  skipped rc = false ->
  classify (Actions (Change_ rc)) = DeleteOnly ->
  let res := estimateResourceCost e (Type_ rc) (Before (Change_ rc)) in
  let st1 := flag_unsupported (supported_of res) (Type_ rc) st in
  process_change e st rc =
    (mkEstimationResult
       (Estimates st1.1
          ++ [record_for rc (- cost_of res)%float
                (details_of res ++ " (removed)")])
       (TotalMonthlyCost st1.1)
       (TotalMonthlyChange st1.1 - cost_of res)%float
       (CreatedResources st1.1)
       (Go.incr (DestroyedResources st1.1))
       (UpdatedResources st1.1)
       (UnsupportedTypes st1.1),
     st1.2).
Proof. intros Hs Hc. step_case Hs Hc. Qed.

Lemma process_change_change (st : loop_state) (rc : ResourceChange)
    (c : action_case) :
  skipped rc = false ->
  classify (Actions (Change_ rc)) = c ->
  c = Replace \/ c = Update ->
  let old := estimateResourceCost e (Type_ rc) (Before (Change_ rc)) in
  let new := estimateResourceCost e (Type_ rc) (After (Change_ rc)) in
  let st1 := flag_unsupported (supported_of new) (Type_ rc) st in
  process_change e st rc =
    (mkEstimationResult
       (Estimates st1.1
          ++ [record_for rc (cost_of new - cost_of old)%float
                (details_of new ++ suffix_of c)])
       (TotalMonthlyCost st1.1)
       (TotalMonthlyChange st1.1 + (cost_of new - cost_of old))%float
       (CreatedResources st1.1)
       (DestroyedResources st1.1)
       (Go.incr (UpdatedResources st1.1))
       (UnsupportedTypes st1.1),
     st1.2).
Proof.
  intros Hs Hc [-> | ->]; step_case Hs Hc.
Qed.

Lemma process_change_other (st : loop_state) (rc : ResourceChange) :
  skipped rc = false ->
  classify (Actions (Change_ rc)) = OtherAction ->
  process_change e st rc =
    (set_Estimates (Estimates st.1 ++ [record_for rc 0%float ""]) st.1,
     st.2).
Proof. intros Hs Hc. step_case Hs Hc. Qed.

(** Flagging only touches the unsupported list and set. *)
Lemma flag_unsupported_accounts (supported : bool) (ty : string)
    (st : loop_state) :
  let st1 := flag_unsupported supported ty st in
  Estimates st1.1 = Estimates st.1
  /\ TotalMonthlyCost st1.1 = TotalMonthlyCost st.1
  /\ TotalMonthlyChange st1.1 = TotalMonthlyChange st.1
  /\ CreatedResources st1.1 = CreatedResources st.1
  /\ DestroyedResources st1.1 = DestroyedResources st.1
  /\ UpdatedResources st1.1 = UpdatedResources st.1.
Proof.
  destruct st as [r u]. unfold flag_unsupported.
  destruct (negb supported && negb (default false (u !! ty)));
    simpl; repeat split.
Qed.

Lemma run_loop_snoc (changes : list ResourceChange) (rc : ResourceChange) :
  run_loop e (changes ++ [rc]) = process_change e (run_loop e changes) rc.
Proof. unfold run_loop. now rewrite fold_left_app. Qed.

End Step.

(** ** The counters never wrap *)

Section Counters.

Variable e : Estimator.

Lemma classify_not_skipped (rc : ResourceChange) :
  classify (Actions (Change_ rc)) <> OtherAction -> skipped rc = false.
Proof.
  unfold classify. intros H.
  destruct (containsAction (Actions (Change_ rc)) "create") eqn:Hc;
    [now apply (contains_not_skipped rc "create"); [simpl; lia|] |].
  destruct (containsAction (Actions (Change_ rc)) "delete") eqn:Hd;
    [now apply (contains_not_skipped rc "delete"); [simpl; lia|] |].
  destruct (containsAction (Actions (Change_ rc)) "update") eqn:Hu;
    [now apply (contains_not_skipped rc "update"); [simpl; lia|] |].
  simpl in H. congruence.
Qed.

Lemma process_change_counters (st : loop_state) (rc : ResourceChange)
    (n : Z) :
  (n < Go.int_max)%Z ->
  counters_within n st.1 ->
  counters_within (n + 1) (process_change e st rc).1.
Proof.
  intros Hn (Hc & Hd & Hu & Hsum).
  destruct (skipped rc) eqn:Hs.
  { rewrite process_change_skipped by assumption.
    unfold counters_within; lia. }
  destruct (classify (Actions (Change_ rc))) eqn:Hcl.
  - rewrite process_change_create by assumption. simpl.
    destruct (flag_unsupported_accounts (supported_of
      (estimateResourceCost e (Type_ rc) (After (Change_ rc))))
      (Type_ rc) st) as (_ & _ & _ & -> & -> & ->).
    unfold counters_within; simpl.
    rewrite incr_in_range by (unfold Go.int_min, Go.int_max in *; lia).
    lia.
  - rewrite process_change_delete by assumption. simpl.
    destruct (flag_unsupported_accounts (supported_of
      (estimateResourceCost e (Type_ rc) (Before (Change_ rc))))
      (Type_ rc) st) as (_ & _ & _ & -> & -> & ->).
    unfold counters_within; simpl.
    rewrite incr_in_range by (unfold Go.int_min, Go.int_max in *; lia).
    lia.
  - rewrite (process_change_change e st rc Replace) by auto. simpl.
    destruct (flag_unsupported_accounts (supported_of
      (estimateResourceCost e (Type_ rc) (After (Change_ rc))))
      (Type_ rc) st) as (_ & _ & _ & -> & -> & ->).
    unfold counters_within; simpl.
    rewrite incr_in_range by (unfold Go.int_min, Go.int_max in *; lia).
    lia.
  - rewrite (process_change_change e st rc Update) by auto. simpl.
    destruct (flag_unsupported_accounts (supported_of
      (estimateResourceCost e (Type_ rc) (After (Change_ rc))))
      (Type_ rc) st) as (_ & _ & _ & -> & -> & ->).
    unfold counters_within; simpl.
    rewrite incr_in_range by (unfold Go.int_min, Go.int_max in *; lia).
    lia.
  - rewrite process_change_other by assumption.
    unfold counters_within; simpl. lia.
Qed.

Lemma run_loop_counters (changes : list ResourceChange) :
  (Z.of_nat (length changes) <= Go.int_max)%Z ->
  counters_within (Z.of_nat (length changes)) (run_loop e changes).1.
Proof.
  induction changes as [|rc changes IH] using rev_ind; intros Hlen.
  - unfold counters_within; simpl; lia.
  - rewrite length_app in Hlen |- *. simpl in Hlen |- *.
    rewrite run_loop_snoc.
    replace (Z.of_nat (length changes + 1))
      with (Z.of_nat (length changes) + 1)%Z by lia.
    apply process_change_counters; [lia | apply IH; lia].
Qed.

(** What [Estimate] returns, field by field, in terms of the loop. *)
Lemma Estimate_fields (p : Plan) :
  let r := (run_loop e (ResourceChanges p)).1 in
  let R := (Estimate e p).1 in
  Estimates R = Estimates r
  /\ TotalMonthlyCost R = TotalMonthlyChange r
  /\ TotalMonthlyChange R = TotalMonthlyChange r
  /\ CreatedResources R = CreatedResources r
  /\ DestroyedResources R = DestroyedResources r
  /\ UpdatedResources R = UpdatedResources r
  /\ UnsupportedTypes R = UnsupportedTypes r.
Proof.
  unfold Estimate. destruct (run_loop e (ResourceChanges p)) as [r u].
  simpl. repeat split.
Qed.

End Counters.

Lemma classify_create_only (actions : list string) :
  containsAction actions "create" = true ->
  containsAction actions "delete" = false ->
  classify actions = CreateOnly.
Proof. intros Hc Hd. unfold classify. now rewrite Hc, Hd. Qed.

(** ** Replacement (create together with delete) *)

(** C1.  When the action list of a change holds both "create" and "delete",
    processing it after any plan adds price(after) - price(before) to the
    total monthly change, raises the updated counter by exactly one, leaves
    the created and destroyed counters alone, and appends a record whose
    detail string is the rule's detail followed by " (replaced)". *)
Theorem replace_counts_as_update (e : Estimator) (p : Plan)
    (rc : ResourceChange) :
  (Z.of_nat (length (ResourceChanges p)) < Go.int_max)%Z ->
  containsAction (Actions (Change_ rc)) "create" = true ->
  containsAction (Actions (Change_ rc)) "delete" = true ->
  let before := (Estimate e p).1 in
  let after := (Estimate e (append_change p rc)).1 in
  let old := estimateResourceCost e (Type_ rc) (Before (Change_ rc)) in
  let new := estimateResourceCost e (Type_ rc) (After (Change_ rc)) in
  TotalMonthlyChange after
    = (TotalMonthlyChange before + (cost_of new - cost_of old))%float
  /\ UpdatedResources after = (UpdatedResources before + 1)%Z
  /\ CreatedResources after = CreatedResources before
  /\ DestroyedResources after = DestroyedResources before
  /\ Estimates after
     = (Estimates before
          ++ [record_for rc (cost_of new - cost_of old)%float
                (details_of new ++ " (replaced)")])%list.
Proof.
  intros Hlen Hc Hd before after old new.
  assert (Hcl : classify (Actions (Change_ rc)) = Replace).
  { unfold classify. now rewrite Hc, Hd. }
  assert (Hs : skipped rc = false).
  { apply classify_not_skipped. now rewrite Hcl. }
  destruct (Estimate_fields e p) as (HE & _ & HT & HC & HD & HU & _).
  destruct (Estimate_fields e (append_change p rc))
    as (HE' & _ & HT' & HC' & HD' & HU' & _).
  fold before in HE, HT, HC, HD, HU.
  fold after in HE', HT', HC', HD', HU'.
  simpl in HE', HT', HC', HD', HU'.
  rewrite run_loop_snoc in HE', HT', HC', HD', HU'.
  rewrite (process_change_change e _ rc Replace) in HE', HT', HC', HD', HU'
    by auto.
  simpl in HE', HT', HC', HD', HU'.
  destruct (flag_unsupported_accounts
              (supported_of new) (Type_ rc) (run_loop e (ResourceChanges p)))
    as (FE & _ & FT & FC & FD & FU).
  fold new in HE', HT', HC', HD', HU'. fold old in HE', HT'.
  pose proof (run_loop_counters e (ResourceChanges p) ltac:(lia))
    as (B1 & B2 & B3 & B4).
  rewrite HE', HT', HC', HD', HU', FE, FT, FC, FD, FU.
  rewrite HE, HT, HC, HD, HU.
  rewrite incr_in_range by (unfold Go.int_min, Go.int_max in *; lia).
  repeat split.
Qed.

Lemma replace_counts_as_update_witness :
  let e := NewEstimator in
  let rc := replace_sample in
  let before := (Estimate e (plan_of [])).1 in
  let after := (Estimate e (append_change (plan_of []) rc)).1 in
  let old := estimateResourceCost e (Type_ rc) (Before (Change_ rc)) in
  let new := estimateResourceCost e (Type_ rc) (After (Change_ rc)) in
  TotalMonthlyChange after
    = (TotalMonthlyChange before + (cost_of new - cost_of old))%float
  /\ UpdatedResources after = (UpdatedResources before + 1)%Z
  /\ CreatedResources after = CreatedResources before
  /\ DestroyedResources after = DestroyedResources before
  /\ Estimates after
     = (Estimates before
          ++ [record_for rc (cost_of new - cost_of old)%float
                (details_of new ++ " (replaced)")])%list.
Proof.
  apply (replace_counts_as_update NewEstimator (plan_of []) replace_sample).
  - vm_compute. reflexivity.
  - vm_compute. reflexivity.
  - vm_compute. reflexivity.
Defined.

(** ** The running total *)

Section Total.

Variable e : Estimator.

Lemma sum_costs_snoc (l : list CostEstimate) (x : CostEstimate) :
  sum_costs (l ++ [x]) = (sum_costs l + MonthlyCost x)%float.
Proof. unfold sum_costs. now rewrite fold_left_app. Qed.

Lemma process_change_total (st : loop_state) (rc : ResourceChange) :
  total_invariant st -> total_invariant (process_change e st rc).
Proof.
  intros [Hsum Hnz]. unfold total_invariant.
  destruct (skipped rc) eqn:Hs.
  { now rewrite process_change_skipped by assumption. }
  destruct (classify (Actions (Change_ rc))) eqn:Hcl.
  - rewrite process_change_create by assumption. simpl.
    destruct (flag_unsupported_accounts (supported_of
      (estimateResourceCost e (Type_ rc) (After (Change_ rc))))
      (Type_ rc) st) as (-> & _ & -> & _).
    rewrite sum_costs_snoc. simpl. rewrite Hsum. split; [reflexivity|].
    intros H. apply F64Facts.add_neg_zero in H as [H _]. now rewrite Hsum in Hnz.
  - rewrite process_change_delete by assumption. simpl.
    destruct (flag_unsupported_accounts (supported_of
      (estimateResourceCost e (Type_ rc) (Before (Change_ rc))))
      (Type_ rc) st) as (-> & _ & -> & _).
    rewrite sum_costs_snoc. simpl. rewrite F64Facts.sub_add_opp, Hsum.
    split; [reflexivity|].
    intros H. apply F64Facts.add_neg_zero in H as [H _]. now rewrite Hsum in Hnz.
  - rewrite (process_change_change e st rc Replace) by auto. simpl.
    destruct (flag_unsupported_accounts (supported_of
      (estimateResourceCost e (Type_ rc) (After (Change_ rc))))
      (Type_ rc) st) as (-> & _ & -> & _).
    rewrite sum_costs_snoc. simpl. rewrite Hsum. split; [reflexivity|].
    intros H. apply F64Facts.add_neg_zero in H as [H _]. now rewrite Hsum in Hnz.
  - rewrite (process_change_change e st rc Update) by auto. simpl.
    destruct (flag_unsupported_accounts (supported_of
      (estimateResourceCost e (Type_ rc) (After (Change_ rc))))
      (Type_ rc) st) as (-> & _ & -> & _).
    rewrite sum_costs_snoc. simpl. rewrite Hsum. split; [reflexivity|].
    intros H. apply F64Facts.add_neg_zero in H as [H _]. now rewrite Hsum in Hnz.
  - rewrite process_change_other by assumption. simpl.
    rewrite sum_costs_snoc. simpl. rewrite <- Hsum.
    rewrite F64Facts.add_zero_r by assumption. now split.
Qed.

Lemma run_loop_total (changes : list ResourceChange) :
  total_invariant (run_loop e changes).
Proof.
  induction changes as [|rc changes IH] using rev_ind.
  - split; [reflexivity|]. unfold F64.neg_zero. simpl.
    change (Prim2SF 0) with (S754_zero false). discriminate.
  - rewrite run_loop_snoc. now apply process_change_total.
Qed.

End Total.

(** C7.  The result's total monthly cost and total monthly change are the
    same number, and that number is the sum of the monthly costs of the
    records in the estimate list (added in list order, starting from 0):
    there is no absolute total apart from the accumulated delta. *)
Theorem total_is_sum_of_estimates (e : Estimator) (p : Plan) :
  let r := (Estimate e p).1 in
  TotalMonthlyCost r = TotalMonthlyChange r
  /\ TotalMonthlyChange r = sum_costs (Estimates r).
Proof.
  intros r.
  destruct (Estimate_fields e p) as (HE & HC & HT & _).
  fold r in HE, HC, HT. rewrite HC, HT, HE.
  split; [reflexivity|]. apply run_loop_total.
Qed.

(** ** Action lists that match no case of the switch *)

(** C3, as stated, fails: a change whose only action is "read" is not
    skipped and matches no case, yet the estimate list grows by a record. *)
Lemma other_action_no_record_counterexample :
  let e := NewEstimator in
  let rc := read_sample in
  let before := (Estimate e (plan_of [])).1 in
  let after := (Estimate e (append_change (plan_of []) rc)).1 in
  Go.Join (Actions (Change_ rc)) "+" <> ""
  /\ Go.Join (Actions (Change_ rc)) "+" <> "no-op"
  /\ classify (Actions (Change_ rc)) = OtherAction
  /\ Estimates before = []
  /\ Estimates after
     = [mkCostEstimate "data.aws_ami.ubuntu" "aws_ami" "read" 0%float ""]
  /\ Estimates after <> Estimates before.
Proof.
  repeat split; try (vm_compute; discriminate).
Qed.

(** C3, amended.  A change that is not skipped and matches none of the four
    cases still gets a record: address, type and action label filled in,
    monthly cost 0 and an empty detail string.  The totals, the three
    counters and the unsupported list stay as they were. *)
Theorem other_action_appends_zero_record (e : Estimator) (p : Plan)
    (rc : ResourceChange) :
  Go.Join (Actions (Change_ rc)) "+" <> "" ->
  Go.Join (Actions (Change_ rc)) "+" <> "no-op" ->
  classify (Actions (Change_ rc)) = OtherAction ->
  let before := (Estimate e p).1 in
  let after := (Estimate e (append_change p rc)).1 in
  Estimates after
    = (Estimates before
         ++ [mkCostEstimate (Address rc) (Type_ rc)
               (Go.Join (Actions (Change_ rc)) "+") 0%float ""])%list
  /\ TotalMonthlyChange after = TotalMonthlyChange before
  /\ TotalMonthlyCost after = TotalMonthlyCost before
  /\ CreatedResources after = CreatedResources before
  /\ DestroyedResources after = DestroyedResources before
  /\ UpdatedResources after = UpdatedResources before
  /\ UnsupportedTypes after = UnsupportedTypes before.
Proof.
  intros Hne Hnoop Hcl before after.
  assert (Hs : skipped rc = false).
  { unfold skipped. apply orb_false_intro; now apply bool_decide_eq_false. }
  destruct (Estimate_fields e p) as (HE & HM & HT & HC & HD & HU & HX).
  destruct (Estimate_fields e (append_change p rc))
    as (HE' & HM' & HT' & HC' & HD' & HU' & HX').
  fold before in HE, HM, HT, HC, HD, HU, HX.
  fold after in HE', HM', HT', HC', HD', HU', HX'.
  simpl in HE', HM', HT', HC', HD', HU', HX'.
  rewrite run_loop_snoc, process_change_other
    in HE', HM', HT', HC', HD', HU', HX' by assumption.
  simpl in HE', HM', HT', HC', HD', HU', HX'.
  rewrite HE', HM', HT', HC', HD', HU', HX', HE, HM, HT, HC, HD, HU, HX.
  repeat split.
Qed.

Lemma other_action_appends_zero_record_witness :
  let e := NewEstimator in
  let rc := read_sample in
  let before := (Estimate e (plan_of [])).1 in
  let after := (Estimate e (append_change (plan_of []) rc)).1 in
  Estimates after
    = (Estimates before
         ++ [mkCostEstimate (Address rc) (Type_ rc)
               (Go.Join (Actions (Change_ rc)) "+") 0%float ""])%list
  /\ TotalMonthlyChange after = TotalMonthlyChange before
  /\ TotalMonthlyCost after = TotalMonthlyCost before
  /\ CreatedResources after = CreatedResources before
  /\ DestroyedResources after = DestroyedResources before
  /\ UpdatedResources after = UpdatedResources before
  /\ UnsupportedTypes after = UnsupportedTypes before.
Proof.
  apply (other_action_appends_zero_record NewEstimator (plan_of [])
           read_sample).
  - vm_compute. discriminate.
  - vm_compute. discriminate.
  - vm_compute. reflexivity.
Defined.

(** ** The estimation phase cannot fail *)


(** ** Missing size classes and the fallback rate *)

Lemma family_rule_cost (e : Estimator) (f : family)
    (attrs : gmap string value) :
  cost_of (family_rule e f attrs)
  = family_cost e f attrs (family_rate (pricing e) f (declared_class f attrs)).
Proof. destruct f; reflexivity. Qed.

Lemma rate_or_fallback_missing (table : gmap string float) (k fb : string) :
  table !! k = None -> rate_or_fallback table k fb = rate_of table fb.
Proof.
  intros Hk. unfold rate_or_fallback, rate_of at 1. rewrite Hk. reflexivity.
Qed.

(** C2.  In each of the six families, a declared class that is absent from
    the default price table is priced at the rate of the family's fallback
    identifier, and that rate is strictly positive: the zero that the map
    returns for the missing key never reaches the estimate.  The rule's
    monthly cost is then the one computed from the fallback rate. *)
Theorem missing_class_uses_fallback (f : family) (k : string) :
  family_table NewDefaultPricing f !! k = None ->
  family_rate NewDefaultPricing f k
    = rate_of (family_table NewDefaultPricing f) (family_fallback f)
  /\ (0 <? family_rate NewDefaultPricing f k)%float = true
  /\ (forall attrs : gmap string value,
        declared_class f attrs = k ->
        cost_of (family_rule NewEstimator f attrs)
        = family_cost NewEstimator f attrs
            (rate_of (family_table NewDefaultPricing f)
               (family_fallback f))).
Proof.
  intros Hk. unfold family_rate.
  rewrite (rate_or_fallback_missing _ _ _ Hk).
  split; [reflexivity|]. split.
  - destruct f; vm_compute; reflexivity.
  - intros attrs <-. rewrite family_rule_cost. unfold family_rate.
    now rewrite (rate_or_fallback_missing _ _ _ Hk).
Qed.

Lemma missing_class_uses_fallback_witness :
  family_rate NewDefaultPricing EC2Family "z9.mega"
    = rate_of (family_table NewDefaultPricing EC2Family)
        (family_fallback EC2Family)
  /\ (0 <? family_rate NewDefaultPricing EC2Family "z9.mega")%float = true
  /\ (forall attrs : gmap string value,
        declared_class EC2Family attrs = "z9.mega" ->
        cost_of (family_rule NewEstimator EC2Family attrs)
        = family_cost NewEstimator EC2Family attrs
            (rate_of (family_table NewDefaultPricing EC2Family)
               (family_fallback EC2Family))).
Proof.
  apply (missing_class_uses_fallback EC2Family "z9.mega").
  vm_compute. reflexivity.
Defined.

(** ** The default class of a compute instance *)

(** C5, as stated, fails: without an "instance_type" attribute the monthly
    cost is that of t3.micro, while the cheapest class in the table is
    t3a.nano at less than half the rate. *)
Lemma default_class_is_cheapest_counterexample :
  let attrs : gmap string value := ∅ in
  attrs !! "instance_type" = None
  /\ cheapest ec2_table = Some ("t3a.nano", 0.0047%float)
  /\ (cost_of (estimateEC2Instance NewEstimator attrs) =? 0.0047 * 730)%float
     = false
  /\ (0.0047 * 730 <? cost_of (estimateEC2Instance NewEstimator attrs))%float
     = true.
Proof. repeat split. Qed.

(** C5, amended.  Without an "instance_type" attribute a compute instance is
    priced as class t3.micro: monthly cost 0.0104 x 730 under the default
    price table, detail "EC2 t3.micro". *)
Theorem default_class_is_t3_micro (attrs : gmap string value) :
  attrs !! "instance_type" = None ->
  estimateEC2Instance NewEstimator attrs
  = ((0.0104 * 730)%float, "EC2 t3.micro", true)
  /\ EC2Instances NewDefaultPricing !! "t3.micro" = Some 0.0104%float.
Proof.
  intros Hk. unfold estimateEC2Instance, getStringAttr. rewrite Hk.
  split; vm_compute; reflexivity.
Qed.

Lemma default_class_is_t3_micro_witness :
  estimateEC2Instance NewEstimator
    (list_to_map [("ami", VString "ami-0abc")])
  = ((0.0104 * 730)%float, "EC2 t3.micro", true)
  /\ EC2Instances NewDefaultPricing !! "t3.micro" = Some 0.0104%float.
Proof.
  apply (default_class_is_t3_micro (list_to_map [("ami", VString "ami-0abc")])).
  vm_compute. reflexivity.
Defined.

(** ** Azure virtual machines: "size" and "vm_size" *)

Lemma getStringAttr_insert_ne (attrs : gmap string value)
    (key other d : string) (v : value) :
  other <> key ->
  getStringAttr (<[other := v]> attrs) key d = getStringAttr attrs key d.
Proof.
  intros Hne. unfold getStringAttr. now rewrite lookup_insert_ne.
Qed.

Lemma getStringAttr_delete_ne (attrs : gmap string value)
    (key other d : string) :
  other <> key ->
  getStringAttr (delete other attrs) key d = getStringAttr attrs key d.
Proof.
  intros Hne. unfold getStringAttr. now rewrite lookup_delete_ne.
Qed.

(** C10.  Unless "size" is present and holds the empty string, the result
    of the Azure rule does not depend on "vm_size": setting it to any value
    or removing it changes nothing.  When "size" is absent the class is
    Standard_B1s whatever "vm_size" says. *)
Theorem azure_vm_size_needs_empty_size (e : Estimator)
    (attrs : gmap string value) (v : value) :
  attrs !! "size" <> Some (VString "") ->
  estimateAzureVM e (<["vm_size" := v]> attrs) = estimateAzureVM e attrs
  /\ estimateAzureVM e (delete "vm_size" attrs) = estimateAzureVM e attrs
  /\ (attrs !! "size" = None ->
      estimateAzureVM e (<["vm_size" := v]> attrs)
      = ((rate_or_fallback (AzureVMs (pricing e)) "Standard_B1s"
            "Standard_B1s" * 730)%float,
         "Azure Standard_B1s", true)).
Proof.
  intros Hsize.
  assert (Hne : getStringAttr attrs "size" "Standard_B1s" <> "").
  { unfold getStringAttr.
    destruct (attrs !! "size") as [[]|] eqn:E; try discriminate.
    intros ->. now apply Hsize. }
  assert (Hi : estimateAzureVM e (<["vm_size" := v]> attrs)
               = estimateAzureVM e attrs).
  { unfold estimateAzureVM.
    rewrite getStringAttr_insert_ne by discriminate.
    now rewrite (bool_decide_eq_false_2 _ Hne). }
  split; [exact Hi|]. split.
  - unfold estimateAzureVM.
    rewrite getStringAttr_delete_ne by discriminate.
    now rewrite (bool_decide_eq_false_2 _ Hne).
  - intros Hnone. rewrite Hi. unfold estimateAzureVM, getStringAttr.
    rewrite Hnone. reflexivity.
Qed.

Lemma azure_vm_size_needs_empty_size_witness :
  let attrs : gmap string value :=
    list_to_map [("location", VString "westeurope")] in
  let v := VString "Standard_E8s_v3" in
  estimateAzureVM NewEstimator (<["vm_size" := v]> attrs)
    = estimateAzureVM NewEstimator attrs
  /\ estimateAzureVM NewEstimator (delete "vm_size" attrs)
     = estimateAzureVM NewEstimator attrs
  /\ (attrs !! "size" = None ->
      estimateAzureVM NewEstimator (<["vm_size" := v]> attrs)
      = ((rate_or_fallback (AzureVMs (pricing NewEstimator)) "Standard_B1s"
            "Standard_B1s" * 730)%float,
         "Azure Standard_B1s", true)).
Proof.
  apply (azure_vm_size_needs_empty_size NewEstimator
           (list_to_map [("location", VString "westeurope")])
           (VString "Standard_E8s_v3")).
  vm_compute. discriminate.
Defined.

Lemma azure_vm_size_read_for_empty_size (e : Estimator)
    (attrs : gmap string value) (s : string) :
  attrs !! "size" = Some (VString "") ->
  attrs !! "vm_size" = Some (VString s) ->
  estimateAzureVM e attrs
  = ((rate_or_fallback (AzureVMs (pricing e)) s "Standard_B1s" * 730)%float,
     "Azure " ++ s, true).
Proof.
  intros Hsize Hvm. unfold estimateAzureVM, getStringAttr.
  rewrite Hsize, Hvm. reflexivity.
Qed.

(** ** The list of unsupported types *)

Lemma elem_of_first_occurrences (l : list string) (x : string) :
  x ∈ first_occurrences l <-> x ∈ l.
Proof.
  induction l as [|a l IH]; simpl; [reflexivity|].
  rewrite !elem_of_cons, list_elem_of_filter, IH.
  destruct (decide (x = a)); naive_solver.
Qed.


Lemma first_occurrences_snoc (l : list string) (x : string) :
  first_occurrences (l ++ [x])
  = if decide (x ∈ l) then first_occurrences l
    else (first_occurrences l ++ [x])%list.
Proof.
  induction l as [|a l IH].
  - reflexivity.
  - change (first_occurrences ((a :: l) ++ [x]))
      with (a :: filter (λ y, y ≠ a) (first_occurrences (l ++ [x]))).
    rewrite IH. change (first_occurrences (a :: l))
      with (a :: filter (λ y, y ≠ a) (first_occurrences l)).
    destruct (decide (x ∈ l)) as [Hin|Hnin];
      destruct (decide (x ∈ a :: l)) as [Hin'|Hnin'].
    + reflexivity.
    + exfalso. apply Hnin'. now apply list_elem_of_further.
    + apply elem_of_cons in Hin' as [->|?]; [|contradiction].
      rewrite filter_app, filter_singleton_False by naive_solver.
      now rewrite app_nil_r.
    + apply not_elem_of_cons in Hnin' as [Hne _].
      rewrite filter_app, filter_singleton_True by assumption.
      reflexivity.
Qed.

Section Unsupported.

Variable e : Estimator.

Lemma flag_unsupported_supported (ty : string) (st : loop_state) :
  flag_unsupported true ty st = st.
Proof. destruct st. reflexivity. Qed.

Lemma process_change_flags (st : loop_state) (rc : ResourceChange) :
  let st' := process_change e st rc in
  let st1 := flag_unsupported (negb (flagged e rc)) (Type_ rc) st in
  UnsupportedTypes st'.1 = UnsupportedTypes st1.1 /\ st'.2 = st1.2.
Proof.
  unfold flagged. destruct (skipped rc) eqn:Hs; simpl.
  { rewrite process_change_skipped, flag_unsupported_supported by assumption.
    now split. }
  destruct (classify (Actions (Change_ rc))) eqn:Hcl;
    rewrite ?negb_involutive.
  - rewrite process_change_create by assumption. now split.
  - rewrite process_change_delete by assumption. now split.
  - rewrite (process_change_change e st rc Replace) by auto. now split.
  - rewrite (process_change_change e st rc Update) by auto. now split.
  - rewrite process_change_other, flag_unsupported_supported by assumption.
    now split.
Qed.

Lemma flagged_types_snoc (changes : list ResourceChange)
    (rc : ResourceChange) :
  flagged_types e (changes ++ [rc])
  = if flagged e rc then (flagged_types e changes ++ [Type_ rc])%list
    else flagged_types e changes.
Proof.
  unfold flagged_types. rewrite filter_app, fmap_app.
  destruct (flagged e rc) eqn:Hf.
  - now rewrite filter_singleton_True.
  - rewrite filter_singleton_False by congruence. simpl.
    now rewrite app_nil_r.
Qed.

Lemma process_change_unsupported (changes : list ResourceChange)
    (st : loop_state) (rc : ResourceChange) :
  unsupported_invariant e changes st ->
  unsupported_invariant e (changes ++ [rc]) (process_change e st rc).
Proof.
  intros [HU HK]. unfold unsupported_invariant.
  destruct (process_change_flags st rc) as [-> ->].
  rewrite flagged_types_snoc.
  destruct (flagged e rc); simpl;
    [|rewrite flag_unsupported_supported; now split].
  destruct st as [r u]. simpl in HU, HK |- *.
  rewrite first_occurrences_snoc.
  destruct (default false (u !! Type_ rc)) eqn:Hd; simpl.
  - apply HK in Hd. rewrite HU, elem_of_first_occurrences in Hd.
    rewrite decide_True by assumption. now split.
  - assert (Hnin : Type_ rc ∉ flagged_types e changes).
    { intros Hin. apply elem_of_first_occurrences in Hin.
      rewrite <- HU in Hin. apply HK in Hin. congruence. }
    rewrite decide_False by assumption. rewrite HU. split; [reflexivity|].
    intros ty. rewrite elem_of_app, list_elem_of_singleton, <- HU, <- HK.
    rewrite lookup_insert. destruct (decide (Type_ rc = ty)); naive_solver.
Qed.

Lemma run_loop_unsupported (changes : list ResourceChange) :
  unsupported_invariant e changes (run_loop e changes).
Proof.
  induction changes as [|rc changes IH] using rev_ind.
  - split; [reflexivity|]. intros ty. simpl.
    rewrite lookup_empty, elem_of_nil. simpl. intuition discriminate.
  - rewrite run_loop_snoc. now apply process_change_unsupported.
Qed.


End Unsupported.



(** ** Nil attribute maps *)

(** C9.  With a nil attribute map the pricing of any resource type returns
    cost 0, detail "no attributes" and supported = false.  A create-only
    change whose after-map is nil therefore leaves the total where it was,
    gets a record of cost 0, and has its type in the unsupported list, even
    when the type has a pricing rule (as "aws_instance" does). *)
Theorem nil_attributes_priced_unsupported (e : Estimator) (p : Plan)
    (rc : ResourceChange) (ty : string) :
  containsAction (Actions (Change_ rc)) "create" = true ->
  containsAction (Actions (Change_ rc)) "delete" = false ->
  After (Change_ rc) = None ->
  let before := (Estimate e p).1 in
  let after := (Estimate e (append_change p rc)).1 in
  estimateResourceCost e ty None = (0%float, "no attributes", false)
  /\ TotalMonthlyChange after = TotalMonthlyChange before
  /\ Estimates after
     = (Estimates before ++ [record_for rc 0%float "no attributes"])%list
  /\ Type_ rc ∈ UnsupportedTypes after.
Proof.
  intros Hc Hd Hnil before after.
  pose proof (classify_create_only _ Hc Hd) as Hcl.
  split; [reflexivity|].
  assert (Hs : skipped rc = false).
  { apply classify_not_skipped. now rewrite Hcl. }
  destruct (Estimate_fields e p) as (HE & _ & HT & _).
  destruct (Estimate_fields e (append_change p rc))
    as (HE' & _ & HT' & _ & _ & _ & HX').
  fold before in HE, HT. fold after in HE', HT', HX'.
  simpl in HE', HT', HX'.
  split; [|split].
  - rewrite HT', HT, run_loop_snoc, process_change_create by assumption.
    rewrite Hnil. simpl.
    destruct (flag_unsupported_accounts false (Type_ rc)
                (run_loop e (ResourceChanges p))) as (_ & _ & -> & _).
    apply F64Facts.add_zero_r, run_loop_total.
  - rewrite HE', HE, run_loop_snoc, process_change_create by assumption.
    rewrite Hnil. simpl.
    destruct (flag_unsupported_accounts false (Type_ rc)
                (run_loop e (ResourceChanges p))) as (-> & _).
    reflexivity.
  - rewrite HX'.
    destruct (run_loop_unsupported e (ResourceChanges p ++ [rc])) as [-> _].
    rewrite elem_of_first_occurrences, flagged_types_snoc.
    assert (Hf : flagged e rc = true).
    { unfold flagged. now rewrite Hs, Hcl, Hnil. }
    rewrite Hf, elem_of_app, list_elem_of_singleton. now right.
Qed.

Lemma nil_attributes_priced_unsupported_witness :
  let e := NewEstimator in
  let rc := nil_after_sample in
  let before := (Estimate e (plan_of [])).1 in
  let after := (Estimate e (append_change (plan_of []) rc)).1 in
  estimateResourceCost e "aws_instance" None
    = (0%float, "no attributes", false)
  /\ TotalMonthlyChange after = TotalMonthlyChange before
  /\ Estimates after
     = (Estimates before ++ [record_for rc 0%float "no attributes"])%list
  /\ Type_ rc ∈ UnsupportedTypes after.
Proof.
  apply (nil_attributes_priced_unsupported NewEstimator (plan_of [])
           nil_after_sample "aws_instance").
  - vm_compute. reflexivity.
  - vm_compute. reflexivity.
  - reflexivity.
Defined.

(** The same sample, evaluated: one created resource of cost 0, and the
    supported type "aws_instance" reported as unsupported. *)
Example nil_after_sample_result :
  (Estimate NewEstimator (plan_of [nil_after_sample])).1
  = mkEstimationResult
      [mkCostEstimate "aws_instance.web" "aws_instance" "create" 0%float
         "no attributes"]
      0%float 0%float 1 0 0 ["aws_instance"].
Proof. vm_compute. reflexivity. Qed.

(** ** Sign of a price *)

Lemma handler_of_rule (e : Estimator) (ty : string)
    (h : gmap string value -> float * string * bool) :
  handler_of e ty = Some h -> rule_for e ty h.
Proof.
  unfold handler_of. intros H.
  repeat match type of H with
    | (if ?c then _ else _) = _ =>
        let Hc := fresh "Hc" in
        destruct c eqn:Hc;
        [ injection H as <-;
          repeat (apply orb_true_iff in Hc as [Hc|Hc]);
          apply bool_decide_eq_true in Hc; subst ty; constructor
        | ]
    end.
  discriminate.
Qed.

Section Sign.

Import F64 F64Facts.

Lemma getFloat64Attr_nonneg (attrs : gmap string value) (key : string)
    (d : float) :
  attr_nonneg attrs key = true -> nonneg d = true ->
  nonneg (getFloat64Attr attrs key d) = true.
Proof.
  unfold attr_nonneg, getFloat64Attr. intros Ha Hd.
  destruct (attrs !! key) as [[]|]; simpl in Ha; try assumption;
    apply of_Z_nonneg; lia.
Qed.

(** A property of every rate of a literal table holds of the rate that a
    lookup with fallback computes. *)
Lemma rate_or_fallback_table (P : float -> bool)
    (l : list (string * float)) (k fb : string) :
  forallb (λ kv, P kv.2) l = true ->
  P (rate_of (list_to_map l) fb) = true ->
  P (rate_or_fallback (list_to_map l) k fb) = true.
Proof.
  intros Hall Hfb. unfold rate_or_fallback.
  destruct (rate_of (list_to_map l) k =? 0)%float eqn:Hz; [assumption|].
  unfold rate_of in Hz |- *.
  destruct (list_to_map l !! k) as [v|] eqn:Hk; simpl in *.
  - apply elem_of_list_to_map_2, list_elem_of_In in Hk.
    apply (proj1 (forallb_forall _ _) Hall (k, v) Hk).
  - discriminate.
Qed.

Lemma ec2_nonneg (attrs : gmap string value) :
  nonneg (cost_of (estimateEC2Instance NewEstimator attrs)) = true.
Proof.
  apply pos_finite_nonneg.
  apply (rate_or_fallback_table monthly_pos ec2_table);
    vm_compute; reflexivity.
Qed.

Lemma gcp_nonneg (attrs : gmap string value) :
  nonneg (cost_of (estimateGCPInstance NewEstimator attrs)) = true.
Proof.
  apply pos_finite_nonneg.
  apply (rate_or_fallback_table monthly_pos gcp_table);
    vm_compute; reflexivity.
Qed.

Lemma azure_nonneg (attrs : gmap string value) :
  nonneg (cost_of (estimateAzureVM NewEstimator attrs)) = true.
Proof.
  apply pos_finite_nonneg.
  apply (rate_or_fallback_table monthly_pos azure_table);
    vm_compute; reflexivity.
Qed.

Lemma rds_nonneg (attrs : gmap string value) :
  attr_nonneg attrs "allocated_storage" = true ->
  nonneg (cost_of (estimateRDSInstance NewEstimator attrs)) = true.
Proof.
  intros Ha. unfold estimateRDSInstance, cost_of. cbn [fst].
  apply add_pos_nonneg.
  - apply (rate_or_fallback_table monthly_pos rds_table); reflexivity.
  - apply mul_nonneg_pos; [|reflexivity].
    now apply getFloat64Attr_nonneg.
Qed.

Lemma ebs_nonneg (attrs : gmap string value) :
  attr_nonneg attrs "size" = true ->
  nonneg (cost_of (estimateEBSVolume NewEstimator attrs)) = true.
Proof.
  intros Ha. unfold estimateEBSVolume, cost_of. cbn [fst].
  apply mul_nonneg_pos.
  - now apply getFloat64Attr_nonneg.
  - apply (rate_or_fallback_table pos_finite ebs_table); reflexivity.
Qed.

Lemma elasticache_nonneg (attrs : gmap string value) :
  attr_nonneg attrs "num_cache_nodes" = true ->
  nonneg (cost_of (estimateElasticache NewEstimator attrs)) = true.
Proof.
  intros Ha. unfold estimateElasticache, cost_of. cbn [fst].
  apply mul_pos_nonneg.
  - apply (rate_or_fallback_table monthly_pos elasticache_table);
      reflexivity.
  - now apply getFloat64Attr_nonneg.
Qed.

Lemma lambda_nonneg (attrs : gmap string value) :
  attr_nonneg attrs "memory_size" = true ->
  nonneg (cost_of (estimateLambda NewEstimator attrs)) = true.
Proof.
  intros Ha. unfold estimateLambda, cost_of. cbn [fst].
  apply div_nonneg_pos; [|reflexivity].
  repeat (apply mul_nonneg_pos; [|reflexivity]).
  apply div_nonneg_pos; [|reflexivity].
  now apply getFloat64Attr_nonneg.
Qed.

Lemma ecs_nonneg (attrs : gmap string value) :
  attr_nonneg attrs "desired_count" = true ->
  nonneg (cost_of (estimateECSService NewEstimator attrs)) = true.
Proof.
  intros Ha. unfold estimateECSService, cost_of. cbn [fst].
  repeat (apply mul_nonneg_pos; [|reflexivity]).
  now apply getFloat64Attr_nonneg.
Qed.

(** Under the default price table a price is negative only through a
    negative declared size or count. *)
Lemma price_nonneg (ty : string) (a : attributes) :
  declared_nonneg ty a = true ->
  nonneg (cost_of (estimateResourceCost NewEstimator ty a)) = true.
Proof.
  intros Hd. destruct a as [attrs|]; [|reflexivity].
  unfold estimateResourceCost.
  destruct (handler_of NewEstimator ty) as [h|] eqn:Hh; [|reflexivity].
  apply handler_of_rule in Hh.
  destruct Hh;
    [ apply ec2_nonneg
    | apply rds_nonneg; exact Hd
    | apply ebs_nonneg; exact Hd
    | vm_compute; reflexivity
    | vm_compute; reflexivity
    | vm_compute; reflexivity
    | vm_compute; reflexivity
    | apply elasticache_nonneg; exact Hd
    | apply lambda_nonneg; exact Hd
    | vm_compute; reflexivity
    | vm_compute; reflexivity
    | apply ecs_nonneg; exact Hd
    | apply gcp_nonneg
    | apply azure_nonneg
    | apply azure_nonneg
    | apply azure_nonneg ].
Qed.

End Sign.

(** ** Creation *)

(** C4, as stated, fails: a created volume whose declared size is -100 is
    priced at -10 a month, and that negative amount is the plan's total. *)
Lemma create_only_nonnegative_counterexample :
  let e := NewEstimator in
  let rc := negative_size_sample in
  let price :=
    cost_of (estimateResourceCost e (Type_ rc) (After (Change_ rc))) in
  let r := (Estimate e (plan_of [rc])).1 in
  containsAction (Actions (Change_ rc)) "create" = true
  /\ containsAction (Actions (Change_ rc)) "delete" = false
  /\ price = (-10)%float
  /\ (price <? 0)%float = true
  /\ (0 <=? price)%float = false
  /\ TotalMonthlyChange r = (-10)%float
  /\ CreatedResources r = 1%Z.
Proof. repeat split; vm_compute; reflexivity. Qed.

(** C4, amended.  A create-only change adds price(after) to the total
    monthly change, raises the created counter by exactly one and appends a
    record carrying that price.  Under the default price table the price is
    not negative whenever the size or count that the rule reads
    (allocated_storage, size, num_cache_nodes, memory_size, desired_count)
    is absent, not a number, or a number that is not negative. *)
Theorem create_only_accounting (e : Estimator) (p : Plan)
    (rc : ResourceChange) :
  (Z.of_nat (length (ResourceChanges p)) < Go.int_max)%Z ->
  containsAction (Actions (Change_ rc)) "create" = true ->
  containsAction (Actions (Change_ rc)) "delete" = false ->
  let before := (Estimate e p).1 in
  let after := (Estimate e (append_change p rc)).1 in
  let res := estimateResourceCost e (Type_ rc) (After (Change_ rc)) in
  TotalMonthlyChange after
    = (TotalMonthlyChange before + cost_of res)%float
  /\ CreatedResources after = (CreatedResources before + 1)%Z
  /\ DestroyedResources after = DestroyedResources before
  /\ UpdatedResources after = UpdatedResources before
  /\ Estimates after
     = (Estimates before ++ [record_for rc (cost_of res) (details_of res)])%list
  /\ (pricing e = NewDefaultPricing ->
      declared_nonneg (Type_ rc) (After (Change_ rc)) = true ->
      (0 <=? cost_of res)%float = true).
Proof.
  intros Hlen Hcr Hdl before after res.
  pose proof (classify_create_only _ Hcr Hdl) as Hcl.
  assert (Hs : skipped rc = false).
  { apply classify_not_skipped. now rewrite Hcl. }
  destruct (Estimate_fields e p) as (HE & _ & HT & HC & HD & HU & _).
  destruct (Estimate_fields e (append_change p rc))
    as (HE' & _ & HT' & HC' & HD' & HU' & _).
  fold before in HE, HT, HC, HD, HU.
  fold after in HE', HT', HC', HD', HU'.
  simpl in HE', HT', HC', HD', HU'.
  rewrite run_loop_snoc, process_change_create
    in HE', HT', HC', HD', HU' by assumption.
  simpl in HE', HT', HC', HD', HU'.
  destruct (flag_unsupported_accounts
              (supported_of res) (Type_ rc) (run_loop e (ResourceChanges p)))
    as (FE & _ & FT & FC & FD & FU).
  fold res in HE', HT', HC', HD', HU'.
  pose proof (run_loop_counters e (ResourceChanges p) ltac:(lia))
    as (B1 & B2 & B3 & B4).
  rewrite HE', HT', HC', HD', HU', FE, FT, FC, FD, FU.
  rewrite HE, HT, HC, HD, HU.
  rewrite incr_in_range by (unfold Go.int_min, Go.int_max in *; lia).
  repeat split.
  intros Hp Hd. destruct e as [pr]. simpl in Hp. subst pr.
  now apply price_nonneg.
Qed.

Lemma create_only_accounting_witness :
  let e := NewEstimator in
  let p := plan_of [gateway_sample] in
  let rc := create_sample in
  let before := (Estimate e p).1 in
  let after := (Estimate e (append_change p rc)).1 in
  let res := estimateResourceCost e (Type_ rc) (After (Change_ rc)) in
  TotalMonthlyChange after
    = (TotalMonthlyChange before + cost_of res)%float
  /\ CreatedResources after = (CreatedResources before + 1)%Z
  /\ DestroyedResources after = DestroyedResources before
  /\ UpdatedResources after = UpdatedResources before
  /\ Estimates after
     = (Estimates before ++ [record_for rc (cost_of res) (details_of res)])%list
  /\ (0 <=? cost_of res)%float = true.
Proof.
  assert (Hlen : (Z.of_nat (length (ResourceChanges
                     (plan_of [gateway_sample]))) < Go.int_max)%Z)
    by (vm_compute; reflexivity).
  assert (Hcr : containsAction (Actions (Change_ create_sample)) "create"
                = true) by (vm_compute; reflexivity).
  assert (Hdl : containsAction (Actions (Change_ create_sample)) "delete"
                = false) by (vm_compute; reflexivity).
  pose proof (create_only_accounting NewEstimator (plan_of [gateway_sample])
                create_sample Hlen Hcr Hdl) as H.
  cbv zeta in H. destruct H as (H1 & H2 & H3 & H4 & H5 & H6).
  refine (conj H1 (conj H2 (conj H3 (conj H4 (conj H5 _))))).
  apply H6; vm_compute; reflexivity.
Defined.

(** ** The getters of the plan *)

Lemma append_if_tagged_spec (actions : list string) (tag : string)
    (acc : list ResourceChange) (rc : ResourceChange) :
  append_if_tagged actions tag acc rc
  = if decide (tag ∈ actions) then (acc ++ [rc])%list else acc.
Proof.
  induction actions as [|a rest IH].
  - destruct (decide (tag ∈ [])) as [H|_]; [|reflexivity].
    now apply elem_of_nil in H.
  - cbn [append_if_tagged]. case_bool_decide as Ha.
    + subst a. destruct (decide (tag ∈ tag :: rest)) as [_|Hn];
        [reflexivity|]. exfalso. apply Hn, list_elem_of_here.
    + rewrite IH.
      destruct (decide (tag ∈ rest)) as [Hin|Hnin];
        destruct (decide (tag ∈ a :: rest)) as [Hin'|Hnin'];
        try reflexivity.
      * exfalso. now apply Hnin', list_elem_of_further.
      * exfalso. apply elem_of_cons in Hin' as [?|?]; congruence.
Qed.

Lemma create_delete_flags_spec (actions : list string) (c d : bool) :
  create_delete_flags actions c d
  = (c || bool_decide ("create" ∈ actions),
     d || bool_decide ("delete" ∈ actions)).
Proof.
  assert (Hcons : forall (tag a : string) (rest : list string) (b : bool),
             (if bool_decide (a = tag) then true else b)
               || bool_decide (tag ∈ rest)
             = b || bool_decide (tag ∈ a :: rest)).
  { intros tag a rest b. case_bool_decide as Ha.
    - subst a. rewrite (bool_decide_eq_true_2 (tag ∈ tag :: rest))
        by apply list_elem_of_here.
      now rewrite orb_true_r.
    - f_equal. apply bool_decide_ext. rewrite elem_of_cons. naive_solver. }
  revert c d. induction actions as [|a rest IH]; intros c d.
  - cbn [create_delete_flags].
    rewrite !bool_decide_eq_false_2 by apply not_elem_of_nil.
    now rewrite !orb_false_r.
  - cbn [create_delete_flags]. rewrite IH. now rewrite !Hcons.
Qed.

Lemma fold_left_filter {A : Type} (P : A -> Prop) `{!∀ x, Decision (P x)}
    (step : list A -> A -> list A) (l acc : list A) :
  (forall acc x, step acc x = if decide (P x) then (acc ++ [x])%list else acc) ->
  fold_left step l acc = (acc ++ filter P l)%list.
Proof.
  intros Hstep. revert acc. induction l as [|x l IH]; intros acc; simpl.
  - now rewrite app_nil_r.
  - rewrite IH, Hstep, filter_cons. destruct (decide (P x)).
    + now rewrite <- app_assoc.
    + reflexivity.
Qed.

Lemma GetCreatedResources_filter (p : Plan) :
  GetCreatedResources p
  = filter (λ rc, "create" ∈ Actions (Change_ rc)) (ResourceChanges p).
Proof.
  unfold GetCreatedResources.
  rewrite (fold_left_filter (λ rc, "create" ∈ Actions (Change_ rc)));
    [reflexivity|].
  intros acc x. apply append_if_tagged_spec.
Qed.

Lemma GetDestroyedResources_filter (p : Plan) :
  GetDestroyedResources p
  = filter (λ rc, "delete" ∈ Actions (Change_ rc)) (ResourceChanges p).
Proof.
  unfold GetDestroyedResources.
  rewrite (fold_left_filter (λ rc, "delete" ∈ Actions (Change_ rc)));
    [reflexivity|].
  intros acc x. apply append_if_tagged_spec.
Qed.

Lemma GetUpdatedResources_filter (p : Plan) :
  GetUpdatedResources p
  = filter (λ rc, "update" ∈ Actions (Change_ rc)) (ResourceChanges p).
Proof.
  unfold GetUpdatedResources.
  rewrite (fold_left_filter (λ rc, "update" ∈ Actions (Change_ rc)));
    [reflexivity|].
  intros acc x. apply append_if_tagged_spec.
Qed.

Lemma GetReplacedResources_filter (p : Plan) :
  GetReplacedResources p
  = filter (λ rc, "create" ∈ Actions (Change_ rc)
                  ∧ "delete" ∈ Actions (Change_ rc))
      (ResourceChanges p).
Proof.
  unfold GetReplacedResources.
  rewrite (fold_left_filter (λ rc, "create" ∈ Actions (Change_ rc)
                                   ∧ "delete" ∈ Actions (Change_ rc)));
    [reflexivity|].
  intros acc x. rewrite create_delete_flags_spec. cbn [orb].
  destruct (decide ("create" ∈ Actions (Change_ x)
                    ∧ "delete" ∈ Actions (Change_ x))) as [[H1 H2]|Hn].
  - now rewrite !bool_decide_eq_true_2.
  - destruct (bool_decide_reflect ("create" ∈ Actions (Change_ x)));
      destruct (bool_decide_reflect ("delete" ∈ Actions (Change_ x)));
      simpl; try reflexivity. exfalso. now apply Hn.
Qed.

(** X1.  Each getter returns, in plan order and once per change, exactly the
    changes whose action list names its tag: "create", "delete", "update",
    or both "create" and "delete" for the replaced ones.  A tag repeated in
    an action list does not repeat the change. *)
Theorem getters_select_by_tag (p : Plan) :
  GetCreatedResources p
  = filter (λ rc, "create" ∈ Actions (Change_ rc)) (ResourceChanges p)
  /\ GetDestroyedResources p
     = filter (λ rc, "delete" ∈ Actions (Change_ rc)) (ResourceChanges p)
  /\ GetUpdatedResources p
     = filter (λ rc, "update" ∈ Actions (Change_ rc)) (ResourceChanges p)
  /\ GetReplacedResources p
     = filter (λ rc, "create" ∈ Actions (Change_ rc)
                     ∧ "delete" ∈ Actions (Change_ rc))
         (ResourceChanges p).
Proof.
  split; [apply GetCreatedResources_filter|].
  split; [apply GetDestroyedResources_filter|].
  split; [apply GetUpdatedResources_filter|].
  apply GetReplacedResources_filter.
Qed.

Lemma length_filter_weaken {A : Type} (P Q : A -> Prop)
    `{!∀ x, Decision (P x)} `{!∀ x, Decision (Q x)} (l : list A) :
  (forall x, P x -> Q x) ->
  (length (filter P l) <= length (filter Q l))%nat.
Proof.
  intros HPQ. induction l as [|x l IH]; [reflexivity|].
  rewrite !filter_cons.
  destruct (decide (P x)) as [HP|HP]; destruct (decide (Q x)) as [HQ|HQ];
    simpl; try lia.
  exfalso. now apply HQ, HPQ.
Qed.

(** X2.  The replaced changes are the ones returned both as created and as
    destroyed, so there are at most as many of them as of either. *)
Theorem replaced_are_created_and_destroyed (p : Plan) (rc : ResourceChange) :
  (rc ∈ GetReplacedResources p
   <-> rc ∈ GetCreatedResources p /\ rc ∈ GetDestroyedResources p)
  /\ (length (GetReplacedResources p) <= length (GetCreatedResources p))%nat
  /\ (length (GetReplacedResources p) <= length (GetDestroyedResources p))%nat.
Proof.
  rewrite GetReplacedResources_filter, GetCreatedResources_filter,
    GetDestroyedResources_filter.
  split; [|split].
  - rewrite !list_elem_of_filter. naive_solver.
  - apply length_filter_weaken. naive_solver.
  - apply length_filter_weaken. naive_solver.
Qed.

(** ** Changes that the loop skips *)

Lemma contains_char_app (c : Ascii.ascii) (s1 s2 : string) :
  contains_char c (s1 ++ s2) = contains_char c s1 || contains_char c s2.
Proof.
  induction s1 as [|c' s1 IH]; simpl; [reflexivity|].
  now destruct (bool_decide (c' = c)).
Qed.

Lemma Join_two_or_more (a b : string) (rest : list string) :
  contains_char "+"%char (Go.Join (a :: b :: rest) "+") = true.
Proof.
  change (Go.Join (a :: b :: rest) "+")
    with (a ++ "+" ++ Go.Join (b :: rest) "+").
  rewrite !contains_char_app. simpl. now rewrite orb_true_r.
Qed.

Lemma skipped_iff (rc : ResourceChange) :
  skipped rc = true
  <-> Actions (Change_ rc) = [] \/ Actions (Change_ rc) = [""]
      \/ Actions (Change_ rc) = ["no-op"].
Proof.
  unfold skipped. rewrite orb_true_iff, !bool_decide_eq_true.
  destruct (Actions (Change_ rc)) as [|a [|b rest]].
  - simpl. intuition congruence.
  - simpl. split.
    + intros [->| ->]; auto.
    + intros [H|[H|H]]; inversion H; auto.
  - pose proof (Join_two_or_more a b rest) as Hp. split.
    + intros [H|H]; rewrite H in Hp; discriminate.
    + intros [H|[H|H]]; discriminate.
Qed.

Lemma Estimate_snoc_skipped (e : Estimator) (p : Plan) (rc : ResourceChange) :
  skipped rc = true -> Estimate e (append_change p rc) = Estimate e p.
Proof.
  intros Hs. unfold Estimate, append_change. simpl.
  now rewrite run_loop_snoc, process_change_skipped.
Qed.

Lemma process_change_record (e : Estimator) (st : loop_state)
    (rc : ResourceChange) :
  skipped rc = false ->
  exists x : CostEstimate,
    Estimates (process_change e st rc).1 = (Estimates st.1 ++ [x])%list
    /\ record_key x = change_key rc.
Proof.
  intros Hs. destruct (classify (Actions (Change_ rc))) eqn:Hcl.
  - rewrite process_change_create by assumption. simpl.
    destruct (flag_unsupported_accounts (supported_of
      (estimateResourceCost e (Type_ rc) (After (Change_ rc))))
      (Type_ rc) st) as (-> & _). eauto.
  - rewrite process_change_delete by assumption. simpl.
    destruct (flag_unsupported_accounts (supported_of
      (estimateResourceCost e (Type_ rc) (Before (Change_ rc))))
      (Type_ rc) st) as (-> & _). eauto.
  - rewrite (process_change_change e st rc Replace) by auto. simpl.
    destruct (flag_unsupported_accounts (supported_of
      (estimateResourceCost e (Type_ rc) (After (Change_ rc))))
      (Type_ rc) st) as (-> & _). eauto.
  - rewrite (process_change_change e st rc Update) by auto. simpl.
    destruct (flag_unsupported_accounts (supported_of
      (estimateResourceCost e (Type_ rc) (After (Change_ rc))))
      (Type_ rc) st) as (-> & _). eauto.
  - rewrite process_change_other by assumption. simpl. eauto.
Qed.

(** X3.  The loop skips a change exactly when its action list is empty,
    holds one empty tag, or is the single tag "no-op"; such a change leaves
    the whole result as it was.  Every other change, whatever its tags,
    adds one record to the estimate list. *)
Theorem skipped_changes_leave_no_trace (e : Estimator) (p : Plan)
    (rc : ResourceChange) :
  (skipped rc = true
   <-> Actions (Change_ rc) = [] \/ Actions (Change_ rc) = [""]
       \/ Actions (Change_ rc) = ["no-op"])
  /\ (skipped rc = true -> Estimate e (append_change p rc) = Estimate e p)
  /\ (skipped rc = false ->
      length (Estimates (Estimate e (append_change p rc)).1)
      = S (length (Estimates (Estimate e p).1))).
Proof.
  split; [apply skipped_iff|]. split; [apply Estimate_snoc_skipped|].
  intros Hs.
  destruct (Estimate_fields e p) as (-> & _).
  destruct (Estimate_fields e (append_change p rc)) as (-> & _).
  simpl. rewrite run_loop_snoc.
  destruct (process_change_record e (run_loop e (ResourceChanges p)) rc Hs)
    as (x & -> & _).
  rewrite length_app. simpl. lia.
Qed.

(** ** The records mirror the changes *)

Lemma estimated_snoc (changes : list ResourceChange) (rc : ResourceChange) :
  estimated (changes ++ [rc])
  = if skipped rc then estimated changes
    else (estimated changes ++ [rc])%list.
Proof.
  unfold estimated. rewrite filter_app.
  destruct (skipped rc) eqn:Hs.
  - rewrite filter_singleton_False by congruence. now rewrite app_nil_r.
  - now rewrite filter_singleton_True.
Qed.

Lemma run_loop_records (e : Estimator) (changes : list ResourceChange) :
  record_key <$> Estimates (run_loop e changes).1
  = change_key <$> estimated changes.
Proof.
  induction changes as [|rc changes IH] using rev_ind; [reflexivity|].
  rewrite run_loop_snoc, estimated_snoc.
  destruct (skipped rc) eqn:Hs.
  - now rewrite process_change_skipped.
  - destruct (process_change_record e (run_loop e changes) rc Hs)
      as (x & -> & Hx).
    rewrite !fmap_app, IH. simpl. now rewrite Hx.
Qed.

(** X4.  The estimate list holds one record per change that is not
    skipped, in plan order, and each record repeats the address, the type
    and the joined action label of its change. *)
Theorem records_mirror_changes (e : Estimator) (p : Plan) :
  record_key <$> Estimates (Estimate e p).1
  = change_key <$> estimated (ResourceChanges p)
  /\ length (Estimates (Estimate e p).1)
     = length (estimated (ResourceChanges p)).
Proof.
  destruct (Estimate_fields e p) as (-> & _).
  pose proof (run_loop_records e (ResourceChanges p)) as H.
  split; [exact H|].
  apply (f_equal length) in H. now rewrite !length_fmap in H.
Qed.

(** ** Destruction and in-place update *)

Lemma classify_delete_only (actions : list string) :
  containsAction actions "delete" = true ->
  containsAction actions "create" = false ->
  classify actions = DeleteOnly.
Proof. intros Hd Hc. unfold classify. now rewrite Hc, Hd. Qed.

Lemma classify_update (actions : list string) :
  containsAction actions "update" = true ->
  containsAction actions "create" = false ->
  containsAction actions "delete" = false ->
  classify actions = Update.
Proof. intros Hu Hc Hd. unfold classify. now rewrite Hc, Hd, Hu. Qed.

Lemma opp_nonpos (x : float) :
  F64.nonneg x = true -> nonpos (- x) = true.
Proof.
  intros Hx. apply F64Facts.nonneg_spec in Hx.
  unfold nonpos. rewrite leb_spec, opp_spec.
  change (Prim2SF 0) with (S754_zero false).
  destruct (Prim2SF x) as [s|s| |s m e]; simpl in Hx |- *; subst;
    try reflexivity; contradiction.
Qed.

(** X5.  A delete-only change (has "delete", not "create") subtracts
    price(before) from the total monthly change, raises the destroyed
    counter by exactly one, leaves the other counters alone and appends a
    record whose cost is the negated price and whose detail ends in
    " (removed)".  Under the default price table the record's cost is not
    positive whenever the declared size or count is not negative. *)
Theorem delete_only_accounting (e : Estimator) (p : Plan)
    (rc : ResourceChange) :
  (Z.of_nat (length (ResourceChanges p)) < Go.int_max)%Z ->
  containsAction (Actions (Change_ rc)) "delete" = true ->
  containsAction (Actions (Change_ rc)) "create" = false ->
  let before := (Estimate e p).1 in
  let after := (Estimate e (append_change p rc)).1 in
  let res := estimateResourceCost e (Type_ rc) (Before (Change_ rc)) in
  TotalMonthlyChange after
    = (TotalMonthlyChange before - cost_of res)%float
  /\ DestroyedResources after = (DestroyedResources before + 1)%Z
  /\ CreatedResources after = CreatedResources before
  /\ UpdatedResources after = UpdatedResources before
  /\ Estimates after
     = (Estimates before
          ++ [record_for rc (- cost_of res)%float
                (details_of res ++ " (removed)")])%list
  /\ (pricing e = NewDefaultPricing ->
      declared_nonneg (Type_ rc) (Before (Change_ rc)) = true ->
      (- cost_of res <=? 0)%float = true).
Proof.
  intros Hlen Hdl Hcr before after res.
  pose proof (classify_delete_only _ Hdl Hcr) as Hcl.
  assert (Hs : skipped rc = false).
  { apply classify_not_skipped. now rewrite Hcl. }
  destruct (Estimate_fields e p) as (HE & _ & HT & HC & HD & HU & _).
  destruct (Estimate_fields e (append_change p rc))
    as (HE' & _ & HT' & HC' & HD' & HU' & _).
  fold before in HE, HT, HC, HD, HU.
  fold after in HE', HT', HC', HD', HU'.
  simpl in HE', HT', HC', HD', HU'.
  rewrite run_loop_snoc, process_change_delete
    in HE', HT', HC', HD', HU' by assumption.
  simpl in HE', HT', HC', HD', HU'.
  destruct (flag_unsupported_accounts
              (supported_of res) (Type_ rc) (run_loop e (ResourceChanges p)))
    as (FE & _ & FT & FC & FD & FU).
  fold res in HE', HT', HC', HD', HU'.
  pose proof (run_loop_counters e (ResourceChanges p) ltac:(lia))
    as (B1 & B2 & B3 & B4).
  rewrite HE', HT', HC', HD', HU', FE, FT, FC, FD, FU.
  rewrite HE, HT, HC, HD, HU.
  rewrite incr_in_range by (unfold Go.int_min, Go.int_max in *; lia).
  repeat split.
  intros Hp Hd. destruct e as [pr]. simpl in Hp. subst pr.
  apply opp_nonpos. now apply price_nonneg.
Qed.

Lemma delete_only_accounting_witness :
  let e := NewEstimator in
  let p := prior_plan_sample in
  let rc := delete_sample in
  let before := (Estimate e p).1 in
  let after := (Estimate e (append_change p rc)).1 in
  let res := estimateResourceCost e (Type_ rc) (Before (Change_ rc)) in
  TotalMonthlyChange after
    = (TotalMonthlyChange before - cost_of res)%float
  /\ DestroyedResources after = (DestroyedResources before + 1)%Z
  /\ CreatedResources after = CreatedResources before
  /\ UpdatedResources after = UpdatedResources before
  /\ Estimates after
     = (Estimates before
          ++ [record_for rc (- cost_of res)%float
                (details_of res ++ " (removed)")])%list
  /\ (- cost_of res <=? 0)%float = true.
Proof.
  assert (Hlen : (Z.of_nat (length (ResourceChanges prior_plan_sample))
                  < Go.int_max)%Z)
    by (vm_compute; reflexivity).
  assert (Hdl : containsAction (Actions (Change_ delete_sample)) "delete"
                = true) by (vm_compute; reflexivity).
  assert (Hcr : containsAction (Actions (Change_ delete_sample)) "create"
                = false) by (vm_compute; reflexivity).
  pose proof (delete_only_accounting NewEstimator (prior_plan_sample)
                delete_sample Hlen Hdl Hcr) as H.
  cbv zeta in H. destruct H as (H1 & H2 & H3 & H4 & H5 & H6).
  refine (conj H1 (conj H2 (conj H3 (conj H4 (conj H5 _))))).
  apply H6; vm_compute; reflexivity.
Defined.

(** X6.  An in-place update (has "update", neither "create" nor "delete")
    is accounted like a replacement: price(after) - price(before) is added
    to the total, the updated counter rises by exactly one, and the record's
    detail ends in " (updated)". *)
Theorem update_accounting (e : Estimator) (p : Plan) (rc : ResourceChange) :
  (Z.of_nat (length (ResourceChanges p)) < Go.int_max)%Z ->
  containsAction (Actions (Change_ rc)) "update" = true ->
  containsAction (Actions (Change_ rc)) "create" = false ->
  containsAction (Actions (Change_ rc)) "delete" = false ->
  let before := (Estimate e p).1 in
  let after := (Estimate e (append_change p rc)).1 in
  let old := estimateResourceCost e (Type_ rc) (Before (Change_ rc)) in
  let new := estimateResourceCost e (Type_ rc) (After (Change_ rc)) in
  TotalMonthlyChange after
    = (TotalMonthlyChange before + (cost_of new - cost_of old))%float
  /\ UpdatedResources after = (UpdatedResources before + 1)%Z
  /\ CreatedResources after = CreatedResources before
  /\ DestroyedResources after = DestroyedResources before
  /\ Estimates after
     = (Estimates before
          ++ [record_for rc (cost_of new - cost_of old)%float
                (details_of new ++ " (updated)")])%list.
Proof.
  intros Hlen Hu Hc Hd before after old new.
  pose proof (classify_update _ Hu Hc Hd) as Hcl.
  assert (Hs : skipped rc = false).
  { apply classify_not_skipped. now rewrite Hcl. }
  destruct (Estimate_fields e p) as (HE & _ & HT & HC & HD & HU & _).
  destruct (Estimate_fields e (append_change p rc))
    as (HE' & _ & HT' & HC' & HD' & HU' & _).
  fold before in HE, HT, HC, HD, HU.
  fold after in HE', HT', HC', HD', HU'.
  simpl in HE', HT', HC', HD', HU'.
  rewrite run_loop_snoc in HE', HT', HC', HD', HU'.
  rewrite (process_change_change e _ rc Update) in HE', HT', HC', HD', HU'
    by auto.
  simpl in HE', HT', HC', HD', HU'.
  destruct (flag_unsupported_accounts
              (supported_of new) (Type_ rc) (run_loop e (ResourceChanges p)))
    as (FE & _ & FT & FC & FD & FU).
  fold new in HE', HT', HC', HD', HU'. fold old in HE', HT'.
  pose proof (run_loop_counters e (ResourceChanges p) ltac:(lia))
    as (B1 & B2 & B3 & B4).
  rewrite HE', HT', HC', HD', HU', FE, FT, FC, FD, FU.
  rewrite HE, HT, HC, HD, HU.
  rewrite incr_in_range by (unfold Go.int_min, Go.int_max in *; lia).
  repeat split.
Qed.

Lemma update_accounting_witness :
  let e := NewEstimator in
  let p := prior_plan_sample in
  let rc := update_sample in
  let before := (Estimate e p).1 in
  let after := (Estimate e (append_change p rc)).1 in
  let old := estimateResourceCost e (Type_ rc) (Before (Change_ rc)) in
  let new := estimateResourceCost e (Type_ rc) (After (Change_ rc)) in
  TotalMonthlyChange after
    = (TotalMonthlyChange before + (cost_of new - cost_of old))%float
  /\ UpdatedResources after = (UpdatedResources before + 1)%Z
  /\ CreatedResources after = CreatedResources before
  /\ DestroyedResources after = DestroyedResources before
  /\ Estimates after
     = (Estimates before
          ++ [record_for rc (cost_of new - cost_of old)%float
                (details_of new ++ " (updated)")])%list.
Proof.
  apply (update_accounting NewEstimator (prior_plan_sample)
           update_sample); vm_compute; reflexivity.
Defined.

(** ** What the counters count *)

Lemma classify_spec (actions : list string) :
  classify actions
  = if decide ("create" ∈ actions) then
      if decide ("delete" ∈ actions) then Replace else CreateOnly
    else if decide ("delete" ∈ actions) then DeleteOnly
    else if decide ("update" ∈ actions) then Update
    else OtherAction.
Proof.
  unfold classify.
  destruct (containsAction actions "create") eqn:Hc;
    destruct (containsAction actions "delete") eqn:Hd;
    destruct (containsAction actions "update") eqn:Hu; simpl;
    repeat match goal with
      | H : containsAction _ _ = true |- _ =>
          apply containsAction_elem_of in H
      | H : containsAction _ ?t = false |- _ =>
          assert (t ∉ actions)
            by (rewrite <- containsAction_elem_of; congruence);
          clear H
      end;
    repeat case_decide; try reflexivity; contradiction.
Qed.

Lemma count_case_snoc (c : action_case) (changes : list ResourceChange)
    (rc : ResourceChange) :
  count_case c (changes ++ [rc])
  = (count_case c changes
     + if decide (classify (Actions (Change_ rc)) = c) then 1 else 0)%Z.
Proof.
  unfold count_case. rewrite filter_app, length_app, filter_cons, filter_nil.
  destruct (decide (classify (Actions (Change_ rc)) = c)); simpl; lia.
Qed.

Lemma run_loop_counts (e : Estimator) (changes : list ResourceChange) :
  (Z.of_nat (length changes) <= Go.int_max)%Z ->
  let r := (run_loop e changes).1 in
  CreatedResources r = count_case CreateOnly changes
  /\ DestroyedResources r = count_case DeleteOnly changes
  /\ UpdatedResources r
     = (count_case Replace changes + count_case Update changes)%Z.
Proof.
  induction changes as [|rc changes IH] using rev_ind; intros Hlen r.
  - repeat split.
  - rewrite length_app in Hlen. simpl in Hlen.
    destruct (IH ltac:(lia)) as (IC & ID & IU).
    pose proof (run_loop_counters e changes ltac:(lia)) as (B1 & B2 & B3 & B4).
    unfold r. rewrite run_loop_snoc, !count_case_snoc.
    destruct (skipped rc) eqn:Hs.
    { rewrite process_change_skipped by assumption.
      assert (Hcl : classify (Actions (Change_ rc)) = OtherAction).
      { destruct (decide (classify (Actions (Change_ rc)) = OtherAction))
          as [H|H]; [exact H|].
        apply classify_not_skipped in H. congruence. }
      rewrite Hcl, IC, ID, IU. simpl. repeat split; lia. }
    destruct (classify (Actions (Change_ rc))) eqn:Hcl.
    + rewrite process_change_create by assumption. simpl.
      destruct (flag_unsupported_accounts (supported_of
        (estimateResourceCost e (Type_ rc) (After (Change_ rc))))
        (Type_ rc) (run_loop e changes)) as (_ & _ & _ & -> & -> & ->).
      rewrite incr_in_range by (unfold Go.int_min, Go.int_max in *; lia).
      rewrite IC, ID, IU. simpl. repeat split; lia.
    + rewrite process_change_delete by assumption. simpl.
      destruct (flag_unsupported_accounts (supported_of
        (estimateResourceCost e (Type_ rc) (Before (Change_ rc))))
        (Type_ rc) (run_loop e changes)) as (_ & _ & _ & -> & -> & ->).
      rewrite incr_in_range by (unfold Go.int_min, Go.int_max in *; lia).
      rewrite IC, ID, IU. simpl. repeat split; lia.
    + rewrite (process_change_change e _ rc Replace) by auto. simpl.
      destruct (flag_unsupported_accounts (supported_of
        (estimateResourceCost e (Type_ rc) (After (Change_ rc))))
        (Type_ rc) (run_loop e changes)) as (_ & _ & _ & -> & -> & ->).
      rewrite incr_in_range by (unfold Go.int_min, Go.int_max in *; lia).
      rewrite IC, ID, IU. simpl. repeat split; lia.
    + rewrite (process_change_change e _ rc Update) by auto. simpl.
      destruct (flag_unsupported_accounts (supported_of
        (estimateResourceCost e (Type_ rc) (After (Change_ rc))))
        (Type_ rc) (run_loop e changes)) as (_ & _ & _ & -> & -> & ->).
      rewrite incr_in_range by (unfold Go.int_min, Go.int_max in *; lia).
      rewrite IC, ID, IU. simpl. repeat split; lia.
    + rewrite process_change_other by assumption. simpl.
      rewrite IC, ID, IU. repeat split; lia.
Qed.

Lemma estimated_by_case (changes : list ResourceChange) :
  Z.of_nat (length (estimated changes))
  = (count_case CreateOnly changes + count_case DeleteOnly changes
     + count_case Replace changes + count_case Update changes
     + Z.of_nat (length (unmatched changes)))%Z.
Proof.
  unfold estimated, unmatched, count_case.
  induction changes as [|rc changes IH]; [reflexivity|].
  rewrite !filter_cons.
  destruct (skipped rc) eqn:Hs.
  - assert (Hcl : classify (Actions (Change_ rc)) = OtherAction).
    { destruct (decide (classify (Actions (Change_ rc)) = OtherAction))
        as [H|H]; [exact H|].
      apply classify_not_skipped in H. congruence. }
    rewrite Hcl. repeat case_decide; try (intuition congruence); exact IH.
  - destruct (classify (Actions (Change_ rc))) eqn:Hcl;
      repeat case_decide; try (intuition congruence); simpl length; lia.
Qed.

(** X7.  In the result of a plan, the created counter is the number of
    create-only changes, the destroyed counter the number of delete-only
    changes and the updated counter the number of replacements plus in-place
    updates; the estimate list is longer than their sum by the number of
    changes that matched no case. *)
Theorem counters_count_cases (e : Estimator) (p : Plan) :
  (Z.of_nat (length (ResourceChanges p)) <= Go.int_max)%Z ->
  let r := (Estimate e p).1 in
  let changes := ResourceChanges p in
  CreatedResources r = count_case CreateOnly changes
  /\ DestroyedResources r = count_case DeleteOnly changes
  /\ UpdatedResources r
     = (count_case Replace changes + count_case Update changes)%Z
  /\ Z.of_nat (length (Estimates r))
     = (CreatedResources r + DestroyedResources r + UpdatedResources r
        + Z.of_nat (length (unmatched changes)))%Z.
Proof.
  intros Hlen r changes. subst r changes.
  destruct (Estimate_fields e p) as (HE & _ & _ & HC & HD & HU & _).
  destruct (run_loop_counts e (ResourceChanges p) Hlen) as (IC & ID & IU).
  rewrite HC, HD, HU, HE, IC, ID, IU.
  repeat split.
  pose proof (run_loop_records e (ResourceChanges p)) as Hk.
  apply (f_equal length) in Hk. rewrite !length_fmap in Hk.
  rewrite Hk, estimated_by_case. lia.
Qed.

Lemma counters_count_cases_witness :
  let e := NewEstimator in
  let p := plan_of mixed_sample in
  let r := (Estimate e p).1 in
  let changes := ResourceChanges p in
  CreatedResources r = count_case CreateOnly changes
  /\ DestroyedResources r = count_case DeleteOnly changes
  /\ UpdatedResources r
     = (count_case Replace changes + count_case Update changes)%Z
  /\ Z.of_nat (length (Estimates r))
     = (CreatedResources r + DestroyedResources r + UpdatedResources r
        + Z.of_nat (length (unmatched changes)))%Z.
Proof.
  apply (counters_count_cases NewEstimator (plan_of mixed_sample)).
  vm_compute. discriminate.
Defined.

(** ** The counters and the getters of the plan *)

Lemma length_filter_split {A : Type} (P Q : A -> Prop)
    `{!∀ x, Decision (P x)} `{!∀ x, Decision (Q x)} (l : list A) :
  length (filter P l)
  = (length (filter (λ x, P x ∧ Q x) l)
     + length (filter (λ x, P x ∧ ¬ Q x) l))%nat.
Proof.
  induction l as [|x l IH]; [reflexivity|].
  rewrite !filter_cons.
  destruct (decide (P x)); destruct (decide (Q x));
    repeat case_decide; try tauto; simpl; lia.
Qed.

Lemma length_filter_ext {A : Type} (P Q : A -> Prop)
    `{!∀ x, Decision (P x)} `{!∀ x, Decision (Q x)} (l : list A) :
  (forall x, P x <-> Q x) -> length (filter P l) = length (filter Q l).
Proof.
  intros Hiff. apply Nat.le_antisymm; apply length_filter_weaken;
    intros x; apply Hiff.
Qed.

(** X8.  The counters of the result agree with the getters of the plan:
    created = created-by-getter minus replaced, destroyed =
    destroyed-by-getter minus replaced, and updated lies between the number
    of replaced changes and that number plus the changes tagged "update". *)
Theorem counters_agree_with_getters (e : Estimator) (p : Plan) :
  (Z.of_nat (length (ResourceChanges p)) <= Go.int_max)%Z ->
  let r := (Estimate e p).1 in
  let created := Z.of_nat (length (GetCreatedResources p)) in
  let destroyed := Z.of_nat (length (GetDestroyedResources p)) in
  let updated := Z.of_nat (length (GetUpdatedResources p)) in
  let replaced := Z.of_nat (length (GetReplacedResources p)) in
  CreatedResources r = (created - replaced)%Z
  /\ DestroyedResources r = (destroyed - replaced)%Z
  /\ (replaced <= UpdatedResources r <= replaced + updated)%Z.
Proof.
  intros Hlen r created destroyed updated replaced.
  subst r.
  destruct (Estimate_fields e p) as (_ & _ & _ & HC & HD & HU & _).
  destruct (run_loop_counts e (ResourceChanges p) Hlen) as (IC & ID & IU).
  rewrite HC, HD, HU, IC, ID, IU.
  unfold created, destroyed, updated, replaced, count_case.
  rewrite GetCreatedResources_filter, GetDestroyedResources_filter,
    GetUpdatedResources_filter, GetReplacedResources_filter.
  set (l := ResourceChanges p).
  pose proof (length_filter_split
                (λ rc, "create" ∈ Actions (Change_ rc))
                (λ rc, "delete" ∈ Actions (Change_ rc)) l) as Sc.
  pose proof (length_filter_split
                (λ rc, "delete" ∈ Actions (Change_ rc))
                (λ rc, "create" ∈ Actions (Change_ rc)) l) as Sd.
  assert (Ec : length (filter (λ rc, classify (Actions (Change_ rc))
                                     = CreateOnly) l)
               = length (filter (λ rc, "create" ∈ Actions (Change_ rc)
                                       ∧ ¬ "delete" ∈ Actions (Change_ rc)) l)).
  { apply length_filter_ext. intros x. rewrite classify_spec.
    repeat case_decide; intuition congruence. }
  assert (Ed : length (filter (λ rc, classify (Actions (Change_ rc))
                                     = DeleteOnly) l)
               = length (filter (λ rc, "delete" ∈ Actions (Change_ rc)
                                       ∧ ¬ "create" ∈ Actions (Change_ rc)) l)).
  { apply length_filter_ext. intros x. rewrite classify_spec.
    repeat case_decide; intuition congruence. }
  assert (Er : length (filter (λ rc, classify (Actions (Change_ rc))
                                     = Replace) l)
               = length (filter (λ rc, "create" ∈ Actions (Change_ rc)
                                       ∧ "delete" ∈ Actions (Change_ rc)) l)).
  { apply length_filter_ext. intros x. rewrite classify_spec.
    repeat case_decide; intuition congruence. }
  assert (Er' : length (filter (λ rc, "delete" ∈ Actions (Change_ rc)
                                      ∧ "create" ∈ Actions (Change_ rc)) l)
                = length (filter (λ rc, "create" ∈ Actions (Change_ rc)
                                        ∧ "delete" ∈ Actions (Change_ rc)) l)).
  { apply length_filter_ext. intros x. tauto. }
  assert (Eu : (length (filter (λ rc, classify (Actions (Change_ rc))
                                      = Update) l)
                <= length (filter (λ rc, "update" ∈ Actions (Change_ rc)) l))
               %nat).
  { apply length_filter_weaken. intros x. rewrite classify_spec.
    repeat case_decide; intuition congruence. }
  lia.
Qed.

Lemma counters_agree_with_getters_witness :
  let e := NewEstimator in
  let p := plan_of mixed_sample in
  let r := (Estimate e p).1 in
  let created := Z.of_nat (length (GetCreatedResources p)) in
  let destroyed := Z.of_nat (length (GetDestroyedResources p)) in
  let updated := Z.of_nat (length (GetUpdatedResources p)) in
  let replaced := Z.of_nat (length (GetReplacedResources p)) in
  CreatedResources r = (created - replaced)%Z
  /\ DestroyedResources r = (destroyed - replaced)%Z
  /\ (replaced <= UpdatedResources r <= replaced + updated)%Z.
Proof.
  apply (counters_agree_with_getters NewEstimator (plan_of mixed_sample)).
  vm_compute. discriminate.
Defined.

(** ** Which types end up in the unsupported list *)

Lemma supported_iff (e : Estimator) (ty : string) (a : attributes) :
  supported_of (estimateResourceCost e ty a) = true
  <-> a <> None /\ handler_of e ty <> None.
Proof.
  destruct a as [attrs|]; [|simpl; intuition congruence].
  unfold estimateResourceCost.
  destruct (handler_of e ty) as [h|] eqn:Hh; [|simpl; intuition congruence].
  apply handler_of_rule in Hh.
  split; [intros _; split; discriminate|]. intros _.
  destruct Hh; reflexivity.
Qed.

Lemma flagged_iff (e : Estimator) (rc : ResourceChange) :
  flagged e rc = true
  <-> classify (Actions (Change_ rc)) <> OtherAction
      /\ (handler_of e (Type_ rc) = None \/ applicable rc = None).
Proof.
  assert (Hns : forall a,
             negb (supported_of (estimateResourceCost e (Type_ rc) a)) = true
             <-> handler_of e (Type_ rc) = None \/ a = None).
  { intros a. rewrite negb_true_iff, <- not_true_iff_false, supported_iff.
    destruct a, (handler_of e (Type_ rc)); intuition congruence. }
  unfold flagged, applicable. rewrite andb_true_iff, negb_true_iff.
  destruct (classify (Actions (Change_ rc))) eqn:Hcl;
    rewrite ?Hns;
    try (assert (Hs : skipped rc = false)
           by (apply classify_not_skipped; rewrite Hcl; discriminate);
         rewrite Hs; intuition congruence).
  intuition congruence.
Qed.

(** X9.  A type is in the unsupported list of the result exactly when some
    change of that type reaches one of the four cases and either the type
    has no pricing rule or the attribute map that is priced (before for a
    delete-only change, after otherwise) is nil.  An unknown size class
    never puts a type there. *)
Theorem unsupported_list_membership (e : Estimator) (p : Plan)
    (ty : string) :
  ty ∈ UnsupportedTypes (Estimate e p).1
  <-> exists rc : ResourceChange,
        rc ∈ ResourceChanges p /\ Type_ rc = ty
        /\ classify (Actions (Change_ rc)) <> OtherAction
        /\ (handler_of e ty = None \/ applicable rc = None).
Proof.
  destruct (Estimate_fields e p) as (_ & _ & _ & _ & _ & _ & ->).
  destruct (run_loop_unsupported e (ResourceChanges p)) as [-> _].
  rewrite elem_of_first_occurrences. unfold flagged_types.
  rewrite list_elem_of_fmap. split.
  - intros (rc & -> & Hin). apply list_elem_of_filter in Hin as [Hf Hin].
    apply flagged_iff in Hf as [Hcl Hwhy]. now exists rc.
  - intros (rc & Hin & <- & Hcl & Hwhy). exists rc. split; [reflexivity|].
    apply list_elem_of_filter. split; [|exact Hin].
    now apply flagged_iff.
Qed.

(** ** The order of the action tags *)

Lemma classify_same_members (l l' : list string) :
  (forall a, a ∈ l <-> a ∈ l') -> classify l = classify l'.
Proof.
  intros H. rewrite !classify_spec.
  pose proof (H "create") as Hc. pose proof (H "delete") as Hd.
  pose proof (H "update") as Hu. clear H.
  repeat case_decide; try reflexivity; tauto.
Qed.

Lemma process_change_same_members (e : Estimator) (st : loop_state)
    (rc : ResourceChange) (actions : list string) :
  (forall a, a ∈ Actions (Change_ rc) <-> a ∈ actions) ->
  classify (Actions (Change_ rc)) <> OtherAction ->
  let s1 := process_change e st rc in
  let s2 := process_change e st (with_actions actions rc) in
  s1.2 = s2.2
  /\ TotalMonthlyChange s1.1 = TotalMonthlyChange s2.1
  /\ CreatedResources s1.1 = CreatedResources s2.1
  /\ DestroyedResources s1.1 = DestroyedResources s2.1
  /\ UpdatedResources s1.1 = UpdatedResources s2.1
  /\ UnsupportedTypes s1.1 = UnsupportedTypes s2.1
  /\ MonthlyCost <$> Estimates s1.1 = MonthlyCost <$> Estimates s2.1
  /\ Details <$> Estimates s1.1 = Details <$> Estimates s2.1.
Proof.
  intros Hmem Hcl s1 s2. subst s1 s2.
  pose proof (classify_same_members _ _ Hmem) as Heq.
  assert (Hcl' : classify (Actions (Change_ (with_actions actions rc)))
                 <> OtherAction) by (simpl; congruence).
  pose proof (classify_not_skipped rc Hcl) as Hs.
  pose proof (classify_not_skipped _ Hcl') as Hs'.
  simpl in Heq.
  destruct (classify (Actions (Change_ rc))) eqn:Hc; try congruence.
  - rewrite (process_change_create e st rc),
      (process_change_create e st (with_actions actions rc))
      by (simpl; congruence).
    simpl. rewrite !fmap_app. repeat split.
  - rewrite (process_change_delete e st rc),
      (process_change_delete e st (with_actions actions rc))
      by (simpl; congruence).
    simpl. rewrite !fmap_app. repeat split.
  - rewrite (process_change_change e st rc Replace),
      (process_change_change e st (with_actions actions rc) Replace)
      by (simpl; auto; congruence).
    simpl. rewrite !fmap_app. repeat split.
  - rewrite (process_change_change e st rc Update),
      (process_change_change e st (with_actions actions rc) Update)
      by (simpl; auto; congruence).
    simpl. rewrite !fmap_app. repeat split.
Qed.

(** X10.  Only the set of action tags decides how a change is accounted:
    listing the same tags in another order or more than once (["delete",
    "create"] for ["create", "delete"]) gives the same totals, counters,
    unsupported list, costs and details.  Only the action label of the
    record follows the order. *)
Theorem action_order_is_irrelevant (e : Estimator) (p : Plan)
    (rc : ResourceChange) (actions : list string) :
  (forall a, a ∈ Actions (Change_ rc) <-> a ∈ actions) ->
  classify (Actions (Change_ rc)) <> OtherAction ->
  let r1 := (Estimate e (append_change p rc)).1 in
  let r2 := (Estimate e (append_change p (with_actions actions rc))).1 in
  TotalMonthlyChange r1 = TotalMonthlyChange r2
  /\ TotalMonthlyCost r1 = TotalMonthlyCost r2
  /\ CreatedResources r1 = CreatedResources r2
  /\ DestroyedResources r1 = DestroyedResources r2
  /\ UpdatedResources r1 = UpdatedResources r2
  /\ UnsupportedTypes r1 = UnsupportedTypes r2
  /\ MonthlyCost <$> Estimates r1 = MonthlyCost <$> Estimates r2
  /\ Details <$> Estimates r1 = Details <$> Estimates r2.
Proof.
  intros Hmem Hcl r1 r2. subst r1 r2.
  destruct (Estimate_fields e (append_change p rc))
    as (-> & -> & -> & -> & -> & -> & ->).
  destruct (Estimate_fields e (append_change p (with_actions actions rc)))
    as (-> & -> & -> & -> & -> & -> & ->).
  simpl. rewrite !run_loop_snoc.
  destruct (process_change_same_members e (run_loop e (ResourceChanges p))
              rc actions Hmem Hcl)
    as (_ & HT & HC & HD & HU & HX & HM & HDt).
  repeat split; assumption.
Qed.

Lemma action_order_is_irrelevant_witness :
  let e := NewEstimator in
  let p := prior_plan_sample in
  let rc := unchanged_sample in
  let r1 := (Estimate e (append_change p rc)).1 in
  let r2 :=
    (Estimate e (append_change p
                   (with_actions ["delete"; "create"; "delete"] rc))).1 in
  TotalMonthlyChange r1 = TotalMonthlyChange r2
  /\ TotalMonthlyCost r1 = TotalMonthlyCost r2
  /\ CreatedResources r1 = CreatedResources r2
  /\ DestroyedResources r1 = DestroyedResources r2
  /\ UpdatedResources r1 = UpdatedResources r2
  /\ UnsupportedTypes r1 = UnsupportedTypes r2
  /\ MonthlyCost <$> Estimates r1 = MonthlyCost <$> Estimates r2
  /\ Details <$> Estimates r1 = Details <$> Estimates r2.
Proof.
  apply (action_order_is_irrelevant NewEstimator prior_plan_sample
           unchanged_sample ["delete"; "create"; "delete"]).
  - intros a. simpl. rewrite !elem_of_cons, !elem_of_nil. tauto.
  - vm_compute. discriminate.
Defined.

(** ** Changes that leave the priced attributes alone *)

Lemma sub_self (x : float) : finite x = true -> (x - x)%float = 0%float.
Proof.
  unfold finite. intros Hx. apply Prim2SF_inj. rewrite sub_spec.
  change (Prim2SF 0) with (S754_zero false).
  destruct (Prim2SF x) as [[]|s| |s m e]; try discriminate; try reflexivity.
  unfold SF64sub, SFsub. rewrite Z.sub_diag. reflexivity.
Qed.

(** X11.  A replacement or in-place update whose before and after maps are
    equal, and whose price is finite, costs exactly 0: the total stays where
    it was and the record carries a zero cost. *)
Theorem unchanged_attributes_cost_nothing (e : Estimator) (p : Plan)
    (rc : ResourceChange) :
  classify (Actions (Change_ rc)) = Replace
    \/ classify (Actions (Change_ rc)) = Update ->
  Before (Change_ rc) = After (Change_ rc) ->
  finite (cost_of (estimateResourceCost e (Type_ rc) (After (Change_ rc))))
    = true ->
  let before := (Estimate e p).1 in
  let after := (Estimate e (append_change p rc)).1 in
  let new := estimateResourceCost e (Type_ rc) (After (Change_ rc)) in
  TotalMonthlyChange after = TotalMonthlyChange before
  /\ Estimates after
     = (Estimates before
          ++ [record_for rc 0%float
                (details_of new
                   ++ suffix_of (classify (Actions (Change_ rc))))])%list.
Proof.
  intros Hcl Hsame Hfin before after new. subst before after new.
  assert (Hs : skipped rc = false).
  { apply classify_not_skipped. destruct Hcl as [-> | ->]; discriminate. }
  destruct (Estimate_fields e p) as (-> & _ & -> & _).
  destruct (Estimate_fields e (append_change p rc)) as (-> & _ & -> & _).
  simpl. rewrite run_loop_snoc.
  rewrite (process_change_change e _ rc (classify (Actions (Change_ rc))))
    by auto.
  simpl. rewrite Hsame.
  destruct (flag_unsupported_accounts
              (supported_of
                 (estimateResourceCost e (Type_ rc) (After (Change_ rc))))
              (Type_ rc) (run_loop e (ResourceChanges p)))
    as (-> & _ & -> & _).
  rewrite (sub_self _ Hfin). split; [|reflexivity].
  apply F64Facts.add_zero_r, run_loop_total.
Qed.

Lemma unchanged_attributes_cost_nothing_witness :
  let e := NewEstimator in
  let p := prior_plan_sample in
  let rc := unchanged_sample in
  let before := (Estimate e p).1 in
  let after := (Estimate e (append_change p rc)).1 in
  let new := estimateResourceCost e (Type_ rc) (After (Change_ rc)) in
  TotalMonthlyChange after = TotalMonthlyChange before
  /\ Estimates after
     = (Estimates before
          ++ [record_for rc 0%float
                (details_of new
                   ++ suffix_of (classify (Actions (Change_ rc))))])%list.
Proof.
  apply (unchanged_attributes_cost_nothing NewEstimator prior_plan_sample
           unchanged_sample).
  - left. vm_compute. reflexivity.
  - reflexivity.
  - vm_compute. reflexivity.
Defined.

(** ** Price range of a compute instance *)

Lemma monthly_between_spec (lo hi v : float) :
  monthly_between lo hi v = true ->
  (lo <=? v * 730)%float = true /\ (v * 730 <=? hi)%float = true.
Proof. unfold monthly_between. now rewrite andb_true_iff. Qed.

(** X12.  Under the default price table the monthly price of a compute
    instance always lies within the range of its table, whatever class is
    declared: between 0.0047 x 730 and 24.48 x 730 for EC2, 0.0084 x 730 and
    0.3884 x 730 for GCP, 0.0104 x 730 and 0.504 x 730 for Azure. *)
Theorem compute_price_within_table (attrs : gmap string value) :
  ((0.0047 * 730 <=? cost_of (estimateEC2Instance NewEstimator attrs)) = true
   /\ (cost_of (estimateEC2Instance NewEstimator attrs) <=? 24.48 * 730)
      = true)%float
  /\ ((0.0084 * 730 <=? cost_of (estimateGCPInstance NewEstimator attrs))
      = true
      /\ (cost_of (estimateGCPInstance NewEstimator attrs) <=? 0.3884 * 730)
         = true)%float
  /\ ((0.0104 * 730 <=? cost_of (estimateAzureVM NewEstimator attrs)) = true
      /\ (cost_of (estimateAzureVM NewEstimator attrs) <=? 0.504 * 730)
         = true)%float.
Proof.
  split; [|split]; apply monthly_between_spec.
  - apply (rate_or_fallback_table
             (monthly_between (0.0047 * 730) (24.48 * 730)) ec2_table);
      vm_compute; reflexivity.
  - apply (rate_or_fallback_table
             (monthly_between (0.0084 * 730) (0.3884 * 730)) gcp_table);
      vm_compute; reflexivity.
  - apply (rate_or_fallback_table
             (monthly_between (0.0104 * 730) (0.504 * 730)) azure_table);
      vm_compute; reflexivity.
Qed.

(** ** Signs of sums and differences *)

Lemma nonpos_spec (x : float) : nonpos x = true <-> sf_nonpos (Prim2SF x).
Proof.
  unfold nonpos. rewrite leb_spec.
  change (Prim2SF 0) with (S754_zero false).
  destruct (Prim2SF x) as [s|[]| |[] m e]; unfold SFleb; simpl;
    intuition congruence.
Qed.

Lemma signed_nonpos (x : spec_float) : F64.signed true x -> sf_nonpos x.
Proof. destruct x; simpl; auto. Qed.

Lemma add_nonneg (x y : float) :
  F64.nonneg x = true -> F64.nonneg y = true -> F64.nonneg (x + y) = true.
Proof.
  rewrite !F64Facts.nonneg_spec, add_spec.
  destruct (Prim2SF x) as [sx|sx| |sx mx ex],
           (Prim2SF y) as [sy|sy| |sy my ey];
    simpl; intros Hx Hy; subst; try exact I; try reflexivity;
    try contradiction.
  - now destruct sx, sy.
  - apply F64Facts.signed_nonneg, F64Facts.binary_round_signed.
Qed.

Lemma sub_nonpos (t c : float) :
  nonpos t = true -> F64.nonneg c = true -> nonpos (t - c) = true.
Proof.
  rewrite F64Facts.sub_add_opp, !nonpos_spec, F64Facts.nonneg_spec,
    add_spec, opp_spec.
  destruct (Prim2SF t) as [sx|sx| |sx mx ex],
           (Prim2SF c) as [sy|sy| |sy my ey];
    simpl; intros Hx Hy; subst; try exact I; try reflexivity;
    try contradiction.
  - now destruct sx, sy.
  - unfold cond_Zopp, negb. cbn [Z.opp Z.add Pos.add].
    unfold binary_normalize.
    apply signed_nonpos, F64Facts.binary_round_signed.
Qed.

Lemma nonpos_le_nonneg (t th : float) :
  nonpos t = true -> F64.nonneg th = true -> (t <=? th)%float = true.
Proof.
  rewrite nonpos_spec, F64Facts.nonneg_spec, leb_spec.
  destruct (Prim2SF t) as [sx|sx| |sx mx ex],
           (Prim2SF th) as [sy|sy| |sy my ey];
    simpl; intros Hx Hy; subst; try reflexivity; contradiction.
Qed.

(** ** Plans that only add or only remove *)

Lemma nonneg_not_negative (x : float) :
  F64.nonneg x = true -> (x <? 0)%float = false.
Proof.
  rewrite F64Facts.nonneg_spec, ltb_spec.
  change (Prim2SF 0) with (S754_zero false).
  destruct (Prim2SF x) as [s|s| |s m e]; simpl; intros Hx; subst;
    try reflexivity; contradiction.
Qed.

Lemma process_change_adds (st : loop_state) (rc : ResourceChange) :
  adds_only rc = true ->
  F64.nonneg (TotalMonthlyChange st.1) = true ->
  F64.nonneg (TotalMonthlyChange (process_change NewEstimator st rc).1)
  = true.
Proof.
  unfold adds_only. intros Ha Ht.
  destruct (skipped rc) eqn:Hs;
    [now rewrite process_change_skipped by assumption|].
  destruct (classify (Actions (Change_ rc))) eqn:Hcl; try discriminate.
  - rewrite process_change_create by assumption. simpl.
    destruct (flag_unsupported_accounts (supported_of
      (estimateResourceCost NewEstimator (Type_ rc) (After (Change_ rc))))
      (Type_ rc) st) as (_ & _ & -> & _).
    apply add_nonneg; [assumption | now apply price_nonneg].
  - now rewrite process_change_other by assumption.
Qed.

Lemma process_change_removes (st : loop_state) (rc : ResourceChange) :
  removes_only rc = true ->
  nonpos (TotalMonthlyChange st.1) = true ->
  nonpos (TotalMonthlyChange (process_change NewEstimator st rc).1) = true.
Proof.
  unfold removes_only. intros Ha Ht.
  destruct (skipped rc) eqn:Hs;
    [now rewrite process_change_skipped by assumption|].
  destruct (classify (Actions (Change_ rc))) eqn:Hcl; try discriminate.
  - rewrite process_change_delete by assumption. simpl.
    destruct (flag_unsupported_accounts (supported_of
      (estimateResourceCost NewEstimator (Type_ rc) (Before (Change_ rc))))
      (Type_ rc) st) as (_ & _ & -> & _).
    apply sub_nonpos; [assumption | now apply price_nonneg].
  - now rewrite process_change_other by assumption.
Qed.

Lemma run_loop_adds (changes : list ResourceChange) :
  Forall (λ rc, adds_only rc = true) changes ->
  F64.nonneg (TotalMonthlyChange (run_loop NewEstimator changes).1) = true.
Proof.
  induction changes as [|rc changes IH] using rev_ind; intros Hall.
  - reflexivity.
  - apply Forall_app in Hall. destruct Hall as [Hl Hrc].
    apply Forall_cons in Hrc. destruct Hrc as [Hrc _].
    rewrite run_loop_snoc.
    apply process_change_adds; [exact Hrc | now apply IH].
Qed.

Lemma run_loop_removes (changes : list ResourceChange) :
  Forall (λ rc, removes_only rc = true) changes ->
  nonpos (TotalMonthlyChange (run_loop NewEstimator changes).1) = true.
Proof.
  induction changes as [|rc changes IH] using rev_ind; intros Hall.
  - reflexivity.
  - apply Forall_app in Hall. destruct Hall as [Hl Hrc].
    apply Forall_cons in Hrc. destruct Hrc as [Hrc _].
    rewrite run_loop_snoc.
    apply process_change_removes; [exact Hrc | now apply IH].
Qed.

(** X13.  Under the default price table, a plan made of creations with
    non-negative declared sizes and counts (and of changes that cost
    nothing) has a total that is not negative, so the confirmation prompt
    announces an additional cost or no change, never a saving. *)
Theorem creations_never_announce_savings (p : Plan) (stdin : string) :
  Forall (λ rc, adds_only rc = true) (ResourceChanges p) ->
  let total := TotalMonthlyChange (Estimate NewEstimator p).1 in
  (0 <=? total)%float = true
  /\ (total <? 0)%float = false
  /\ printed (ConfirmApply total stdin)
     = if (0 <? total)%float then additional_cost_message total
       else no_change_message.
Proof.
  intros Hall total.
  assert (Hnn : F64.nonneg total = true).
  { unfold total.
    destruct (Estimate_fields NewEstimator p) as (_ & _ & -> & _).
    now apply run_loop_adds. }
  pose proof (nonneg_not_negative _ Hnn) as Hlt.
  split; [exact Hnn|]. split; [exact Hlt|].
  unfold ConfirmApply. rewrite Hlt.
  destruct (GoText.ReadString GoText.newline stdin) as [response [err|]];
    reflexivity.
Qed.

Lemma creations_never_announce_savings_witness :
  let total :=
    TotalMonthlyChange (Estimate NewEstimator (plan_of rollout_sample)).1 in
  (0 <=? total)%float = true
  /\ (total <? 0)%float = false
  /\ printed (ConfirmApply total "")
     = if (0 <? total)%float then additional_cost_message total
       else no_change_message.
Proof.
  apply (creations_never_announce_savings (plan_of rollout_sample) "").
  unfold plan_of, rollout_sample. simpl ResourceChanges.
  repeat (apply Forall_cons; split; [vm_compute; reflexivity|]).
  apply Forall_nil_2.
Defined.

(** X14.  Under the default price table, a plan made of deletions with
    non-negative declared sizes and counts (and of changes that cost
    nothing) has a total that is not positive, and [ConfirmWithThreshold]
    approves it under any threshold that is not negative without reading
    the standard input. *)
Theorem teardown_is_approved_unasked (p : Plan) (threshold : float)
    (stdin : string) :
  Forall (λ rc, removes_only rc = true) (ResourceChanges p) ->
  (0 <=? threshold)%float = true ->
  let total := TotalMonthlyChange (Estimate NewEstimator p).1 in
  (total <=? 0)%float = true
  /\ ConfirmWithThreshold total threshold stdin
     = mkPrompted true None (within_threshold_message total threshold).
Proof.
  intros Hall Hth total.
  assert (Hnp : nonpos total = true).
  { unfold total.
    destruct (Estimate_fields NewEstimator p) as (_ & _ & -> & _).
    now apply run_loop_removes. }
  split; [exact Hnp|].
  unfold ConfirmWithThreshold.
  now rewrite (nonpos_le_nonneg total threshold Hnp Hth).
Qed.

Lemma teardown_is_approved_unasked_witness :
  let total :=
    TotalMonthlyChange (Estimate NewEstimator (plan_of teardown_sample)).1 in
  (total <=? 0)%float = true
  /\ ConfirmWithThreshold total 100 "n"
     = mkPrompted true None (within_threshold_message total 100).
Proof.
  apply (teardown_is_approved_unasked (plan_of teardown_sample) 100 "n").
  - unfold plan_of, teardown_sample. simpl ResourceChanges.
    repeat (apply Forall_cons; split; [vm_compute; reflexivity|]).
    apply Forall_nil_2.
  - vm_compute. reflexivity.
Defined.

(** ** Reading the answer *)

Lemma string_app_cons (c : ascii) (a b : string) :
  String c a ++ b = String c (a ++ b).
Proof. reflexivity. Qed.


Lemma ReadString_line (delim : ascii) (line rest : string) :
  contains_char delim line = false ->
  GoText.ReadString delim (line ++ String delim rest)
  = (line ++ String delim "", None).
Proof.
  induction line as [|c line IH]; rewrite ?string_app_cons; simpl.
  - intros _. now rewrite bool_decide_eq_true_2.
  - destruct (bool_decide (c = delim)); [discriminate|].
    intros H. now rewrite (IH H).
Qed.



(** ** Which answers confirm *)

Lemma string_app_assoc (a b c : string) : (a ++ b) ++ c = a ++ b ++ c.
Proof.
  induction a as [|x a IH]; [reflexivity|].
  change (String x ((a ++ b) ++ c) = String x (a ++ b ++ c)).
  f_equal. exact IH.
Qed.

Lemma string_app_nil_r (a : string) : a ++ "" = a.
Proof.
  induction a as [|x a IH]; [reflexivity|].
  change (String x (a ++ "") = String x a). f_equal. exact IH.
Qed.

Lemma ToLower_app (a b : string) :
  GoText.ToLower (a ++ b) = GoText.ToLower a ++ GoText.ToLower b.
Proof.
  induction a as [|x a IH]; [reflexivity|].
  change (String (GoText.lower_byte x) (GoText.ToLower (a ++ b))
          = String (GoText.lower_byte x)
              (GoText.ToLower a ++ GoText.ToLower b)).
  f_equal. exact IH.
Qed.

Lemma ToLower_app_inv (s a b : string) :
  GoText.ToLower s = a ++ b ->
  exists a' b', s = a' ++ b' /\ GoText.ToLower a' = a
                /\ GoText.ToLower b' = b.
Proof.
  revert s. induction a as [|x a IH]; intros s H.
  - exists "", s. repeat split. exact H.
  - destruct s as [|c s]; [discriminate|]. simpl in H.
    injection H as Hx Hrest. destruct (IH s Hrest) as (a' & b' & -> & Ha & Hb).
    exists (String c a'), b'. rewrite ?string_app_cons. simpl. now rewrite Ha, Hx.
Qed.

Lemma is_space_lower_byte (c : ascii) :
  GoText.is_space (GoText.lower_byte c) = GoText.is_space c.
Proof. destruct c as [[] [] [] [] [] [] [] []]; reflexivity. Qed.

Lemma all_space_ToLower (s : string) :
  all_space (GoText.ToLower s) = all_space s.
Proof.
  induction s as [|c s IH]; rewrite ?string_app_cons; simpl; [reflexivity|].
  now rewrite is_space_lower_byte, IH.
Qed.

Lemma all_space_app (a b : string) :
  all_space (a ++ b) = all_space a && all_space b.
Proof.
  induction a as [|x a IH]; rewrite ?string_app_cons; simpl; [reflexivity|].
  now rewrite IH, andb_assoc.
Qed.

Lemma trim_left_spaces (pre s : string) :
  all_space pre = true ->
  GoText.trim_left (pre ++ s) = GoText.trim_left s.
Proof.
  induction pre as [|c pre IH]; rewrite ?string_app_cons; simpl; [reflexivity|].
  intros H. apply andb_true_iff in H as [-> H]. now apply IH.
Qed.

Lemma trim_left_decomp (s : string) :
  exists pre, s = pre ++ GoText.trim_left s /\ all_space pre = true.
Proof.
  induction s as [|c s (pre & Hs & Hpre)]; rewrite ?string_app_cons; simpl.
  - now exists "".
  - destruct (GoText.is_space c) eqn:Hc.
    + exists (String c pre). rewrite ?string_app_cons. simpl. rewrite Hc, Hpre. split; [|reflexivity].
      now rewrite <- Hs.
    + now exists "".
Qed.

Lemma trim_left_app (s t : string) :
  GoText.trim_left s <> "" ->
  GoText.trim_left (s ++ t) = GoText.trim_left s ++ t.
Proof.
  induction s as [|c s IH]; rewrite ?string_app_cons; simpl; [congruence|].
  destruct (GoText.is_space c); [exact IH | reflexivity].
Qed.

Lemma trim_right_all_space (s : string) :
  all_space s = true -> GoText.trim_right s = "".
Proof.
  induction s as [|c s IH]; rewrite ?string_app_cons; simpl; [reflexivity|].
  intros H. apply andb_true_iff in H as [Hc H]. now rewrite (IH H), Hc.
Qed.

Lemma trim_right_spaces (s post : string) :
  all_space post = true ->
  GoText.trim_right (s ++ post) = GoText.trim_right s.
Proof.
  intros Hp. induction s as [|c s IH]; rewrite ?string_app_cons; simpl.
  - now apply trim_right_all_space.
  - now rewrite IH.
Qed.

Lemma trim_right_decomp (s : string) :
  exists post, s = GoText.trim_right s ++ post /\ all_space post = true.
Proof.
  induction s as [|c s (post & Hs & Hpost)].
  - now exists "".
  - simpl. destruct (GoText.trim_right s) as [|d t] eqn:Ht.
    + change (s = post) in Hs. subst post.
      destruct (GoText.is_space c) eqn:Hc.
      * exists (String c s). split; [reflexivity|].
        simpl. now rewrite Hc, Hpost.
      * exists s. now split.
    + exists post. split; [|exact Hpost].
      rewrite Hs at 1. reflexivity.
Qed.

Lemma TrimSpace_decomp (s : string) :
  exists pre post,
    s = pre ++ GoText.TrimSpace s ++ post
    /\ all_space pre = true /\ all_space post = true.
Proof.
  destruct (trim_left_decomp s) as (pre & Hs & Hpre).
  destruct (trim_right_decomp (GoText.trim_left s)) as (post & Ht & Hpost).
  exists pre, post. unfold GoText.TrimSpace. split; [|now split].
  now rewrite <- Ht.
Qed.

Lemma TrimSpace_app_space (s sp : string) :
  all_space sp = true -> GoText.TrimSpace (s ++ sp) = GoText.TrimSpace s.
Proof.
  intros Hsp. unfold GoText.TrimSpace.
  destruct (GoText.trim_left s) as [|c t] eqn:Ht.
  - destruct (trim_left_decomp s) as (pre & Hs & Hpre).
    rewrite Ht, string_app_nil_r in Hs. subst pre.
    rewrite trim_left_spaces by assumption.
    destruct (trim_left_decomp sp) as (pre & Hs' & _).
    apply trim_right_all_space.
    rewrite Hs', all_space_app in Hsp. now apply andb_true_iff in Hsp.
  - rewrite trim_left_app by (rewrite Ht; discriminate).
    rewrite Ht. now apply trim_right_spaces.
Qed.

Lemma TrimSpace_word (pre word post : string) :
  all_space pre = true -> all_space post = true ->
  word = "y" \/ word = "yes" ->
  GoText.TrimSpace (pre ++ word ++ post) = word.
Proof.
  intros Hpre Hpost Hw.
  rewrite <- string_app_assoc, TrimSpace_app_space by assumption.
  unfold GoText.TrimSpace. rewrite trim_left_spaces by assumption.
  destruct Hw as [-> | ->]; reflexivity.
Qed.

(** X16.  For an ASCII line, [ConfirmApply] confirms exactly when the line
    is white space, then the word "y" or "yes" in any mix of upper and lower
    case, then white space; every other answer declines. *)
Theorem answer_confirms_iff (cost : float) (line rest : string) :
  contains_char GoText.newline line = false ->
  GoText.ascii_only line = true ->
  confirmed (ConfirmApply cost (line ++ String GoText.newline rest)) = true
  <-> exists pre word post : string,
        line = pre ++ word ++ post
        /\ all_space pre = true /\ all_space post = true
        /\ (GoText.ToLower word = "y" \/ GoText.ToLower word = "yes").
Proof.
  intros Hline _. unfold ConfirmApply.
  rewrite (ReadString_line _ _ _ Hline). cbn [confirmed].
  rewrite ToLower_app.
  rewrite TrimSpace_app_space by reflexivity.
  rewrite orb_true_iff, !bool_decide_eq_true. split.
  - intros Hw.
    destruct (TrimSpace_decomp (GoText.ToLower line))
      as (pre & post & Hs & Hpre & Hpost).
    apply ToLower_app_inv in Hs as (pre' & tail & -> & Hp & Ht).
    apply ToLower_app_inv in Ht as (word & post' & -> & Hword & Hq).
    exists pre', word, post'. split; [reflexivity|].
    rewrite <- all_space_ToLower, Hp, <- (all_space_ToLower post'), Hq.
    repeat split; try assumption. now rewrite Hword.
  - intros (pre & word & post & -> & Hpre & Hpost & Hw).
    rewrite !ToLower_app.
    rewrite <- all_space_ToLower in Hpre, Hpost.
    rewrite (TrimSpace_word _ _ _ Hpre Hpost Hw). exact Hw.
Qed.

Lemma answer_confirms_iff_witness :
  confirmed (ConfirmApply 12.5 ("  YeS " ++ String GoText.newline "")) = true
  <-> exists pre word post : string,
        "  YeS " = pre ++ word ++ post
        /\ all_space pre = true /\ all_space post = true
        /\ (GoText.ToLower word = "y" \/ GoText.ToLower word = "yes").
Proof.
  apply (answer_confirms_iff 12.5 "  YeS " ""); vm_compute; reflexivity.
Defined.

(** ** A total that is not a number *)

Lemma is_nan_spec (x : float) : is_nan x = true -> Prim2SF x = S754_nan.
Proof.
  unfold is_nan. intros H. apply negb_true_iff in H.
  rewrite FloatAxioms.eqb_spec in H. unfold SFeqb in H.
  destruct (Prim2SF x) as [s|[]| |[] m e]; simpl in H; try discriminate;
    try reflexivity;
    rewrite Z.compare_refl, Pos.compare_cont_refl in H; discriminate.
Qed.

(** X17.  A cost that is NaN is within no threshold: whatever the threshold,
    [ConfirmWithThreshold] hands over to [ConfirmApply], and the question
    asked is the one for "No significant cost change". *)
Theorem nan_cost_is_always_asked (cost threshold : float) (stdin : string) :
  is_nan cost = true ->
  ConfirmWithThreshold cost threshold stdin = ConfirmApply cost stdin
  /\ printed (ConfirmApply cost stdin) = no_change_message.
Proof.
  intros Hnan. apply is_nan_spec in Hnan.
  unfold ConfirmWithThreshold, ConfirmApply.
  rewrite leb_spec, !ltb_spec, Hnan.
  change (Prim2SF 0) with (S754_zero false). cbn [SFleb SFltb SFcompare].
  split; [reflexivity|].
  destruct (GoText.ReadString GoText.newline stdin) as [response [err|]];
    reflexivity.
Qed.

Lemma nan_cost_is_always_asked_witness :
  ConfirmWithThreshold nan infinity "y" = ConfirmApply nan "y"
  /\ printed (ConfirmApply nan "y") = no_change_message.
Proof.
  apply (nan_cost_is_always_asked nan infinity "y"). reflexivity.
Defined.

(** Such a total is within reach of a plan: replacing a cache cluster of
    1e308 nodes by one of the same size subtracts infinity from infinity. *)
Example nan_total_is_reachable :
  is_nan
    (TotalMonthlyChange
       (Estimate NewEstimator
          (plan_of
             [change_of "aws_elasticache_cluster.c" "aws_elasticache_cluster"
                ["delete"; "create"]
                (attrs_of [("num_cache_nodes", VFloat64 1e308)])
                (attrs_of [("num_cache_nodes", VFloat64 1e308)])])).1)
  = true.
Proof. vm_compute. reflexivity. Qed.

(** ** Estimating two plans in a row *)

Lemma first_occurrences_app (a b : list string) :
  first_occurrences (a ++ b)
  = (first_occurrences a
       ++ filter (λ x, x ∉ first_occurrences a) (first_occurrences b))%list.
Proof.
  induction b as [|x b IH] using rev_ind.
  - rewrite app_nil_r. simpl. now rewrite filter_nil, app_nil_r.
  - rewrite app_assoc, !first_occurrences_snoc, IH.
    destruct (decide (x ∈ b)) as [Hb|Hb].
    + rewrite decide_True by (apply elem_of_app; auto). reflexivity.
    + rewrite filter_app, filter_cons, filter_nil.
      destruct (decide (x ∈ a)) as [Ha|Ha].
      * rewrite decide_True by (apply elem_of_app; auto).
        rewrite decide_False
          by (rewrite elem_of_first_occurrences; tauto).
        now rewrite app_nil_r.
      * rewrite decide_False by (rewrite elem_of_app; tauto).
        rewrite decide_True by (rewrite elem_of_first_occurrences; tauto).
        now rewrite app_assoc.
Qed.

Lemma flagged_types_app (e : Estimator) (a b : list ResourceChange) :
  flagged_types e (a ++ b)
  = (flagged_types e a ++ flagged_types e b)%list.
Proof.
  unfold flagged_types. now rewrite filter_app, fmap_app.
Qed.

Lemma count_case_app (c : action_case) (a b : list ResourceChange) :
  count_case c (a ++ b) = (count_case c a + count_case c b)%Z.
Proof. unfold count_case. rewrite filter_app, length_app. lia. Qed.

(** The record that a change adds does not depend on what came before. *)
Lemma process_change_appends (e : Estimator) (st st' : loop_state)
    (rc : ResourceChange) :
  exists l : list CostEstimate,
    Estimates (process_change e st rc).1 = (Estimates st.1 ++ l)%list
    /\ Estimates (process_change e st' rc).1 = (Estimates st'.1 ++ l)%list.
Proof.
  destruct (skipped rc) eqn:Hs.
  { exists []. rewrite !process_change_skipped by assumption.
    now rewrite !app_nil_r. }
  destruct (classify (Actions (Change_ rc))) eqn:Hcl.
  - rewrite !process_change_create by assumption. simpl.
    destruct (flag_unsupported_accounts (supported_of
      (estimateResourceCost e (Type_ rc) (After (Change_ rc))))
      (Type_ rc) st) as (-> & _).
    destruct (flag_unsupported_accounts (supported_of
      (estimateResourceCost e (Type_ rc) (After (Change_ rc))))
      (Type_ rc) st') as (-> & _). eauto.
  - rewrite !process_change_delete by assumption. simpl.
    destruct (flag_unsupported_accounts (supported_of
      (estimateResourceCost e (Type_ rc) (Before (Change_ rc))))
      (Type_ rc) st) as (-> & _).
    destruct (flag_unsupported_accounts (supported_of
      (estimateResourceCost e (Type_ rc) (Before (Change_ rc))))
      (Type_ rc) st') as (-> & _). eauto.
  - rewrite (process_change_change e st rc Replace),
      (process_change_change e st' rc Replace) by auto. simpl.
    destruct (flag_unsupported_accounts (supported_of
      (estimateResourceCost e (Type_ rc) (After (Change_ rc))))
      (Type_ rc) st) as (-> & _).
    destruct (flag_unsupported_accounts (supported_of
      (estimateResourceCost e (Type_ rc) (After (Change_ rc))))
      (Type_ rc) st') as (-> & _). eauto.
  - rewrite (process_change_change e st rc Update),
      (process_change_change e st' rc Update) by auto. simpl.
    destruct (flag_unsupported_accounts (supported_of
      (estimateResourceCost e (Type_ rc) (After (Change_ rc))))
      (Type_ rc) st) as (-> & _).
    destruct (flag_unsupported_accounts (supported_of
      (estimateResourceCost e (Type_ rc) (After (Change_ rc))))
      (Type_ rc) st') as (-> & _). eauto.
  - rewrite !process_change_other by assumption. simpl. eauto.
Qed.

Lemma run_loop_app_records (e : Estimator) (a b : list ResourceChange) :
  Estimates (run_loop e (a ++ b)).1
  = (Estimates (run_loop e a).1 ++ Estimates (run_loop e b).1)%list.
Proof.
  induction b as [|rc b IH] using rev_ind.
  - rewrite !app_nil_r. reflexivity.
  - rewrite app_assoc, !run_loop_snoc.
    destruct (process_change_appends e (run_loop e (a ++ b)) (run_loop e b)
                rc) as (l & -> & ->).
    now rewrite IH, app_assoc.
Qed.

(** X18.  Estimating the changes of two plans in a row gives the records of
    the first followed by those of the second, each record being what its
    change yields on its own; the counters add up, and the unsupported list
    is that of the first plan followed by the types of the second plan's
    list that the first did not already flag. *)
Theorem plans_compose (e : Estimator) (p q : Plan) :
  (Z.of_nat (length (ResourceChanges p) + length (ResourceChanges q))
   <= Go.int_max)%Z ->
  let rp := (Estimate e p).1 in
  let rq := (Estimate e q).1 in
  let r := (Estimate e (append_plan p q)).1 in
  Estimates r = (Estimates rp ++ Estimates rq)%list
  /\ CreatedResources r = (CreatedResources rp + CreatedResources rq)%Z
  /\ DestroyedResources r = (DestroyedResources rp + DestroyedResources rq)%Z
  /\ UpdatedResources r = (UpdatedResources rp + UpdatedResources rq)%Z
  /\ UnsupportedTypes r
     = (UnsupportedTypes rp
          ++ filter (λ ty, ty ∉ UnsupportedTypes rp) (UnsupportedTypes rq))%list.
Proof.
  intros Hlen rp rq r. subst rp rq r.
  destruct (Estimate_fields e p) as (-> & _ & _ & -> & -> & -> & ->).
  destruct (Estimate_fields e q) as (-> & _ & _ & -> & -> & -> & ->).
  destruct (Estimate_fields e (append_plan p q))
    as (-> & _ & _ & -> & -> & -> & ->).
  unfold append_plan. cbn [ResourceChanges].
  destruct (run_loop_counts e (ResourceChanges p) ltac:(lia))
    as (-> & -> & ->).
  destruct (run_loop_counts e (ResourceChanges q) ltac:(lia))
    as (-> & -> & ->).
  destruct (run_loop_counts e (ResourceChanges p ++ ResourceChanges q))
    as (-> & -> & ->); [rewrite length_app; lia|].
  rewrite !count_case_app.
  destruct (run_loop_unsupported e (ResourceChanges p)) as (-> & _).
  destruct (run_loop_unsupported e (ResourceChanges q)) as (-> & _).
  destruct (run_loop_unsupported e (ResourceChanges p ++ ResourceChanges q))
    as (-> & _).
  rewrite flagged_types_app, first_occurrences_app.
  split; [apply run_loop_app_records|]. repeat split; lia.
Qed.

Lemma plans_compose_witness :
  let e := NewEstimator in
  let p := plan_of mixed_sample in
  let q := plan_of rollout_sample in
  let rp := (Estimate e p).1 in
  let rq := (Estimate e q).1 in
  let r := (Estimate e (append_plan p q)).1 in
  Estimates r = (Estimates rp ++ Estimates rq)%list
  /\ CreatedResources r = (CreatedResources rp + CreatedResources rq)%Z
  /\ DestroyedResources r = (DestroyedResources rp + DestroyedResources rq)%Z
  /\ UpdatedResources r = (UpdatedResources rp + UpdatedResources rq)%Z
  /\ UnsupportedTypes r
     = (UnsupportedTypes rp
          ++ filter (λ ty, ty ∉ UnsupportedTypes rp) (UnsupportedTypes rq))%list.
Proof.
  apply (plans_compose NewEstimator (plan_of mixed_sample)
           (plan_of rollout_sample)).
  vm_compute. discriminate.
Defined.

(** The total is left out of the above on purpose: binary64 addition is not
    associative, and three instances are enough to tell the total of the
    whole from the sum of the totals of its parts. *)
Example total_does_not_compose :
  let a := change_of "aws_instance.a" "aws_instance" ["create"] None
             (attrs_of [("instance_type", VString "t3.micro")]) in
  let b := change_of "aws_instance.b" "aws_instance" ["create"] None
             (attrs_of [("instance_type", VString "t3.small")]) in
  let c := change_of "aws_instance.c" "aws_instance" ["create"] None
             (attrs_of [("instance_type", VString "t3a.nano")]) in
  let total (l : list ResourceChange) :=
    TotalMonthlyChange (Estimate NewEstimator (plan_of l)).1 in
  (total [a; b; c] =? total [a] + total [b; c])%float = false.
Proof. vm_compute. reflexivity. Qed.
